(** * Minimap control: bounds synchronisation between a primary and an inset map

    Shallow embedding of [src/minimap.ts] (class [Minimap]) and of the second
    revision of the same class that ships next to it, followed by the
    properties of the bounds synchroniser.

    Conventions of the embedding.
    - Coordinates, zoom levels and offsets are JavaScript numbers; they are
      modelled as exact rationals [Q].  No property below depends on
      rounding, and [Math.min]/[Math.max] are [Qmin]/[Qmax].
    - The class instance is the record [Minimap]; a method is a function from
      the instance (and its arguments) to the instance after the call.
      A method that can raise a [TypeError] returns [option]: [None] is the
      uncaught exception.
    - Calls into the map engine are appended to the field [calls], in the
      order in which the method issues them.
    - [this.trackingRectCoordinates] and the [geometry.coordinates] of the
      GeoJSON source's [_data] are one and the same array (it is passed by
      reference in [load]); the model keeps it once, in
      [trackingRectCoordinates]. *)

From Stdlib Require Import QArith Qminmax Lqa.
From stdpp Require Import base option list strings gmap.

Local Open Scope string_scope.
Local Open Scope list_scope.
Local Open Scope Q_scope.

(** ** Data model *)

(** [LngLat] and [LngLatBounds] of the map engine. *)
Record LngLat := { lng : Q; lat : Q }.
Record LngLatBounds := { _ne : LngLat; _sw : LngLat }.

(** Values an option of the control can hold. *)
#[warnings="-register-all"]
Inductive JsVal :=
| JUndefined
| JBool (b : bool)
| JNum (q : Q)
| JStr (s : string)
| JArr (l : list JsVal)
| JObj (fields : list (string * JsVal)).

(** JavaScript truthiness of a property read; an absent property reads as
    [undefined]. *)
Definition truthy (v : option JsVal) : bool :=
  match v with
  | None | Some JUndefined => false
  | Some (JBool b) => b
  | Some (JNum q) => negb (Qeq_bool q 0)
  | Some (JStr s) => negb (String.eqb s "")
  | Some (JArr _) | Some (JObj _) => true
  end.

(** A property read used as a number; [None] stands for a non-number. *)
Definition as_number (v : option JsVal) : option Q :=
  match v with
  | Some (JNum q) => Some q
  | _ => None
  end.

(** [number[][][]] with possibly empty slots: the polygon rings. *)
Abbreviation Coordinates := (list (list (list (option Q)))).

(** [a[i] = v] on a JavaScript array: replaces in range, extends otherwise
    (leaving empty slots below [i]). *)
Definition array_set {A} (i : nat) (v : A) (a : list (option A)) : list (option A) :=
  if decide (i < length a)%nat then <[i := Some v]> a
  else a ++ replicate (i - length a) None ++ [Some v].

(** [trc[0][i][j] = v]; reading [trc[0]] or [trc[0][i]] as [undefined]
    raises. *)
Definition set_trc (i j : nat) (v : Q) (trc : Coordinates) : option Coordinates :=
  ring ← trc !! 0%nat;
  pt ← ring !! i;
  Some (<[0%nat := <[i := array_set j v pt]> ring]> trc).

(** The primary map, as far as the control reads it. *)
Record MapT := { getZoom : Q; getBounds : LngLatBounds; getCenter : LngLat }.

(** The DOM element of the inset canvas: only [style.cursor] is written. *)
Record Canvas := { cursor : string }.

(** The inset map: the ids answered by [getLayer] and [getSource], and its
    canvas container. *)
Record InsetMap := {
  layers : list string;
  sources : list string;
  getCanvasContainer : Canvas }.

(** The GeoJSON feature held by the tracking source: [properties.bounds]
    (absent until the first synchronisation); its coordinates are
    [trackingRectCoordinates]. *)
Record Feature := { properties_bounds : option LngLatBounds }.
Record GeoJSONSource := { _data : option Feature }.

(** A [MapMouseEvent] of the inset map.  [features_length] is the length of
    [queryRenderedFeatures(e.point, {layers: ["trackingRectFill"]})], which
    the engine computes from the event's screen point. *)
Record MapMouseEvent := { lngLat : LngLat; features_length : nat }.

Inductive Target := Primary | Inset | InsetCanvas.
Inductive Handler :=
| onLoad | onToggle | onMainMapMove | onMainMapMoveEnd
| onMouseMove | onMouseDown | onMouseUp | preventDefault.

(** Calls into the engine.  [SetData] carries the feature as it is when the
    call is made: its bounds and the shared coordinates. *)
Inductive Call :=
| On (t : Target) (type : string) (h : Handler)
| Off (t : Target) (type : string) (h : Handler)
| FitBounds (b : option LngLatBounds) (duration : Z)
| SetZoom (z : option Q)
| SetCenter (c : LngLat)
| SetMaxBounds (b : option JsVal)
| Disable (interaction : string)
| RemoveLayer (id : string)
| RemoveSource (id : string)
| AddSource (id : string) (coordinates : Coordinates)
| AddLayer (id type : string) (paint : list (string * option JsVal))
| SetData (bounds : option LngLatBounds) (coordinates : Coordinates).

(** The instance.  Fields without influence on the synchroniser
    ([mapGL], [container], [toggleButton]) are left out. *)
Record Minimap := {
  options : gmap string JsVal;
  map : option MapT;
  minimap : option InsetMap;
  minimapCanvas : option Canvas;
  isCollapsed : bool;
  isDragging : bool;
  isCursorOverFeature : bool;
  currentPoint : Q * Q;
  previousPoint : Q * Q;
  trackingRect : option GeoJSONSource;
  trackingRectCoordinates : Coordinates;
  calls : list Call }.

(** Field assignments [this.f = v]. *)
Definition set_minimapCanvas (v : option Canvas) (this : Minimap) : Minimap :=
  {| options := options this; map := map this; minimap := minimap this;
     minimapCanvas := v; isCollapsed := isCollapsed this;
     isDragging := isDragging this;
     isCursorOverFeature := isCursorOverFeature this;
     currentPoint := currentPoint this; previousPoint := previousPoint this;
     trackingRect := trackingRect this;
     trackingRectCoordinates := trackingRectCoordinates this;
     calls := calls this |}.

Definition set_minimap (v : option InsetMap) (this : Minimap) : Minimap :=
  {| options := options this; map := map this; minimap := v;
     minimapCanvas := minimapCanvas this; isCollapsed := isCollapsed this;
     isDragging := isDragging this;
     isCursorOverFeature := isCursorOverFeature this;
     currentPoint := currentPoint this; previousPoint := previousPoint this;
     trackingRect := trackingRect this;
     trackingRectCoordinates := trackingRectCoordinates this;
     calls := calls this |}.

Definition set_map (v : option MapT) (this : Minimap) : Minimap :=
  {| options := options this; map := v; minimap := minimap this;
     minimapCanvas := minimapCanvas this; isCollapsed := isCollapsed this;
     isDragging := isDragging this;
     isCursorOverFeature := isCursorOverFeature this;
     currentPoint := currentPoint this; previousPoint := previousPoint this;
     trackingRect := trackingRect this;
     trackingRectCoordinates := trackingRectCoordinates this;
     calls := calls this |}.

Definition set_isDragging (v : bool) (this : Minimap) : Minimap :=
  {| options := options this; map := map this; minimap := minimap this;
     minimapCanvas := minimapCanvas this; isCollapsed := isCollapsed this;
     isDragging := v;
     isCursorOverFeature := isCursorOverFeature this;
     currentPoint := currentPoint this; previousPoint := previousPoint this;
     trackingRect := trackingRect this;
     trackingRectCoordinates := trackingRectCoordinates this;
     calls := calls this |}.

Definition set_isCursorOverFeature (v : bool) (this : Minimap) : Minimap :=
  {| options := options this; map := map this; minimap := minimap this;
     minimapCanvas := minimapCanvas this; isCollapsed := isCollapsed this;
     isDragging := isDragging this;
     isCursorOverFeature := v;
     currentPoint := currentPoint this; previousPoint := previousPoint this;
     trackingRect := trackingRect this;
     trackingRectCoordinates := trackingRectCoordinates this;
     calls := calls this |}.

Definition set_currentPoint (v : Q * Q) (this : Minimap) : Minimap :=
  {| options := options this; map := map this; minimap := minimap this;
     minimapCanvas := minimapCanvas this; isCollapsed := isCollapsed this;
     isDragging := isDragging this;
     isCursorOverFeature := isCursorOverFeature this;
     currentPoint := v; previousPoint := previousPoint this;
     trackingRect := trackingRect this;
     trackingRectCoordinates := trackingRectCoordinates this;
     calls := calls this |}.

Definition set_previousPoint (v : Q * Q) (this : Minimap) : Minimap :=
  {| options := options this; map := map this; minimap := minimap this;
     minimapCanvas := minimapCanvas this; isCollapsed := isCollapsed this;
     isDragging := isDragging this;
     isCursorOverFeature := isCursorOverFeature this;
     currentPoint := currentPoint this; previousPoint := v;
     trackingRect := trackingRect this;
     trackingRectCoordinates := trackingRectCoordinates this;
     calls := calls this |}.

Definition set_trackingRect (v : option GeoJSONSource) (this : Minimap) : Minimap :=
  {| options := options this; map := map this; minimap := minimap this;
     minimapCanvas := minimapCanvas this; isCollapsed := isCollapsed this;
     isDragging := isDragging this;
     isCursorOverFeature := isCursorOverFeature this;
     currentPoint := currentPoint this; previousPoint := previousPoint this;
     trackingRect := v;
     trackingRectCoordinates := trackingRectCoordinates this;
     calls := calls this |}.

Definition set_trackingRectCoordinates (v : Coordinates) (this : Minimap) : Minimap :=
  {| options := options this; map := map this; minimap := minimap this;
     minimapCanvas := minimapCanvas this; isCollapsed := isCollapsed this;
     isDragging := isDragging this;
     isCursorOverFeature := isCursorOverFeature this;
     currentPoint := currentPoint this; previousPoint := previousPoint this;
     trackingRect := trackingRect this;
     trackingRectCoordinates := v;
     calls := calls this |}.

(** Issue one call into the engine. *)
Definition call (c : Call) (this : Minimap) : Minimap :=
  {| options := options this; map := map this; minimap := minimap this;
     minimapCanvas := minimapCanvas this; isCollapsed := isCollapsed this;
     isDragging := isDragging this;
     isCursorOverFeature := isCursorOverFeature this;
     currentPoint := currentPoint this; previousPoint := previousPoint this;
     trackingRect := trackingRect this;
     trackingRectCoordinates := trackingRectCoordinates this;
     calls := calls this ++ [c] |}.

(** ** The class [Minimap] *)

(** The defaults written in the constructor. *)
Definition default_options : gmap string JsVal :=
  list_to_map [
    ("id", JStr "mapgl-minimap");
    ("width", JStr "320px");
    ("height", JStr "180px");
    ("style", JObj [("version", JNum 8); ("sources", JObj []); ("layers", JArr [])]);
    ("center", JArr [JNum 0; JNum 0]);
    ("zoomLevelOffset", JNum (-3));
    ("lineColor", JStr "#136a7e");
    ("lineWidth", JNum 1);
    ("lineOpacity", JNum 1);
    ("fillColor", JStr "#d77a34");
    ("fillOpacity", JNum (1 # 4));
    ("toggleDisplay", JBool false);
    ("dragPan", JBool false);
    ("scrollZoom", JBool false);
    ("boxZoom", JBool false);
    ("dragRotate", JBool false);
    ("keyboard", JBool false);
    ("doubleClickZoom", JBool false);
    ("touchZoomRotate", JBool false);
    ("disableMinimapMoveOnDrag", JBool false);
    ("enableResize", JBool false);
    ("enableMove", JBool false) ].

(** [constructor(mapgl, config?)].  [Object.assign(this.options, config)]
    copies every own property of [config] over the defaults: a left-biased
    union. *)
Definition constructor (config : option (gmap string JsVal)) : Minimap :=
  {| map := None; minimap := None; minimapCanvas := None;
     isCollapsed := false; isDragging := false; isCursorOverFeature := false;
     currentPoint := (0, 0); previousPoint := (0, 0);
     trackingRectCoordinates := [[ []; []; []; []; [] ]];
     trackingRect := None;
     options := match config with
                | Some config => config ∪ default_options
                | None => default_options
                end;
     calls := [] |}.

(** [mouseDown(e)]. *)
Definition mouseDown (e : MapMouseEvent) (this : Minimap) : Minimap :=
  if isCursorOverFeature this then
    let this := set_isDragging true this in
    let this := set_previousPoint (currentPoint this) this in
    set_currentPoint (lng (lngLat e), lat (lngLat e)) this
  else this.

(** [zoomAdjust()]. *)
Definition zoomAdjust (this : Minimap) : Minimap :=
  match minimap this, map this with
  | Some _, Some m =>
      call (SetZoom (Qplus (getZoom m) <$> as_number (options this !! "zoomLevelOffset"))) this
  | _, _ => this
  end.

(** [convertBoundsToPoints(bounds)]: ten element writes into the shared
    array. *)
Definition convertBoundsToPoints (bounds : LngLatBounds) (this : Minimap) : option Minimap :=
  let ne := _ne bounds in
  let sw := _sw bounds in
  let trc := trackingRectCoordinates this in
  trc ← set_trc 0 0 (lng ne) trc;
  trc ← set_trc 0 1 (lat ne) trc;
  trc ← set_trc 1 0 (lng sw) trc;
  trc ← set_trc 1 1 (lat ne) trc;
  trc ← set_trc 2 0 (lng sw) trc;
  trc ← set_trc 2 1 (lat sw) trc;
  trc ← set_trc 3 0 (lng ne) trc;
  trc ← set_trc 3 1 (lat sw) trc;
  trc ← set_trc 4 0 (lng ne) trc;
  trc ← set_trc 4 1 (lat ne) trc;
  Some (set_trackingRectCoordinates trc this).

(** [setTrackingRectBounds()].  [getBounds()] answers a fresh object, so the
    feature's bounds are a copy of the primary map's. *)
Definition setTrackingRectBounds (this : Minimap) : option Minimap :=
  match map this with
  | None => Some this
  | Some m =>
      let bounds := getBounds m in
      match trackingRect this with
      | None => Some this
      | Some source =>
          data ← _data source;
          let this :=
            set_trackingRect
              (Some {| _data := Some {| properties_bounds := Some bounds |} |}) this in
          this ← convertBoundsToPoints bounds this;
          Some (call (SetData (Some bounds) (trackingRectCoordinates this)) this)
      end
  end.

(** The four [-=] of [moveTrackingRect]: [offset] is [[lng, lat]]. *)
Definition translate (offset : Q * Q) (bounds : LngLatBounds) : LngLatBounds :=
  {| _ne := {| lat := lat (_ne bounds) - offset.2; lng := lng (_ne bounds) - offset.1 |};
     _sw := {| lat := lat (_sw bounds) - offset.2; lng := lng (_sw bounds) - offset.1 |} |}.

(** The four [Math.min]/[Math.max] assignments of [moveTrackingRect]. *)
Definition restrict (bounds : LngLatBounds) : LngLatBounds :=
  {| _ne := {| lat := Qmin (lat (_ne bounds)) 90; lng := Qmin (lng (_ne bounds)) 180 |};
     _sw := {| lat := Qmax (lat (_sw bounds)) (-90); lng := Qmax (lng (_sw bounds)) (-180) |} |}.

(** [moveTrackingRect(offset)] of [src/minimap.ts].  The result is the
    returned value ([None] for [undefined]) and the instance. *)
Definition moveTrackingRect (offset : Q * Q) (this : Minimap)
  : option (option LngLatBounds * Minimap) :=
  match trackingRect this with
  | None => Some (None, this)
  | Some source =>
      match _data source with
      | None => Some (None, this)
      | Some data =>
          bounds ← properties_bounds data;
          let bounds := translate offset bounds in
          let bounds := restrict bounds in
          let this :=
            set_trackingRect
              (Some {| _data := Some {| properties_bounds := Some bounds |} |}) this in
          Some (Some bounds,
                call (SetData (Some bounds) (trackingRectCoordinates this)) this)
      end
  end.

(** [update()]. *)
Definition update (this : Minimap) : option Minimap :=
  if isDragging this then Some this
  else setTrackingRectBounds (zoomAdjust this).

(** [mapMoved()]. *)
Definition mapMoved (this : Minimap) : Minimap :=
  match minimap this, map this with
  | Some _, Some m => call (SetCenter (getCenter m)) this
  | _, _ => this
  end.

(** [mouseMove(e)], over the [moveTrackingRect] of the revision at hand. *)
Definition mouseMove_with
    (moveTrackingRect : Q * Q → Minimap → option (option LngLatBounds * Minimap))
    (e : MapMouseEvent) (this : Minimap) : option Minimap :=
  match minimapCanvas this, minimap this, map this with
  | Some _, Some _, Some _ =>
      let features_length := features_length e in
      let this :=
        if negb (isCursorOverFeature this && bool_decide (0 < features_length)%nat) then
          let this := set_isCursorOverFeature (bool_decide (0 < features_length)%nat) this in
          set_minimapCanvas
            (Some {| cursor := if isCursorOverFeature this then "move" else "" |}) this
        else this in
      if isDragging this then
        let this := set_previousPoint (currentPoint this) this in
        let this := set_currentPoint (lng (lngLat e), lat (lngLat e)) this in
        let offset :=
          ((previousPoint this).1 - (currentPoint this).1,
           (previousPoint this).2 - (currentPoint this).2) in
        '(newBounds, this) ← moveTrackingRect offset this;
        if negb (truthy (options this !! "disableMinimapMoveOnDrag")) then
          Some (call (FitBounds newBounds 80) this)
        else Some this
      else Some this
  | _, _, _ => Some this
  end.

Definition mouseMove : MapMouseEvent → Minimap → option Minimap :=
  mouseMove_with moveTrackingRect.

(** [mouseUp()]. *)
Definition mouseUp (this : Minimap) : option Minimap :=
  if isDragging this then
    let this := set_isDragging false this in
    match trackingRect this, map this, minimap this with
    | Some source, Some _, Some _ =>
        trackingRectData ← _data source;
        let bounds := properties_bounds trackingRectData in
        let this := call (Off Primary "move" onMainMapMove) this in
        Some (call (FitBounds bounds 500) this)
    | _, _, _ => Some this
    end
  else Some this.

(** Layer and source bookkeeping of the inset map. *)
Definition removeLayer (id : string) (mm : InsetMap) : InsetMap :=
  {| layers := filter (λ l, l ≠ id) (layers mm); sources := sources mm;
     getCanvasContainer := getCanvasContainer mm |}.

Definition removeSource (id : string) (mm : InsetMap) : InsetMap :=
  {| layers := layers mm; sources := filter (λ l, l ≠ id) (sources mm);
     getCanvasContainer := getCanvasContainer mm |}.

Definition addSource (id : string) (mm : InsetMap) : InsetMap :=
  {| layers := layers mm; sources := sources mm ++ [id];
     getCanvasContainer := getCanvasContainer mm |}.

Definition addLayer (id : string) (mm : InsetMap) : InsetMap :=
  {| layers := layers mm ++ [id]; sources := sources mm;
     getCanvasContainer := getCanvasContainer mm |}.

(** The interaction handlers named in [load]. *)
Definition interactions : list string :=
  ["dragPan"; "scrollZoom"; "boxZoom"; "dragRotate"; "keyboard";
   "doubleClickZoom"; "touchZoomRotate"].

(** The loop of [load] over [interactions]. *)
Definition disable_interactions (this : Minimap) : Minimap :=
  foldl (λ this interaction,
           if negb (truthy (options this !! interaction))
           then call (Disable interaction) this else this)
        this interactions.

(** [load()].  [this.map] and [this.minimap] are dereferenced without a
    guard. *)
Definition load (this : Minimap) : option Minimap :=
  let opts := options this in
  mm ← minimap this;
  let this := disable_interactions this in
  let '(mm, this) :=
    if bool_decide ("trackingRectOutline" ∈ layers mm)
    then (removeLayer "trackingRectOutline" mm, call (RemoveLayer "trackingRectOutline") this)
    else (mm, this) in
  let '(mm, this) :=
    if bool_decide ("trackingRectFill" ∈ layers mm)
    then (removeLayer "trackingRectFill" mm, call (RemoveLayer "trackingRectFill") this)
    else (mm, this) in
  let '(mm, this) :=
    if bool_decide ("trackingRect" ∈ sources mm)
    then (removeSource "trackingRect" mm, call (RemoveSource "trackingRect") this)
    else (mm, this) in
  let mm := addSource "trackingRect" mm in
  let this := call (AddSource "trackingRect" (trackingRectCoordinates this)) this in
  let mm := addLayer "trackingRectOutline" mm in
  let this :=
    call (AddLayer "trackingRectOutline" "line"
            [("line-color", opts !! "lineColor");
             ("line-width", opts !! "lineWidth");
             ("line-opacity", opts !! "lineOpacity")]) this in
  let mm := addLayer "trackingRectFill" mm in
  let this :=
    call (AddLayer "trackingRectFill" "fill"
            [("fill-color", opts !! "fillColor");
             ("fill-opacity", opts !! "fillOpacity")]) this in
  let this := set_minimap (Some mm) this in
  let this :=
    set_trackingRect (Some {| _data := Some {| properties_bounds := None |} |}) this in
  this ← update this;
  _ ← map this;
  let this := call (On Primary "move" onMainMapMove) this in
  let this := call (On Primary "moveend" onMainMapMoveEnd) this in
  let this := call (On Inset "mousemove" onMouseMove) this in
  let this := call (On Inset "mousedown" onMouseDown) this in
  let this := call (On Inset "mouseup" onMouseUp) this in
  let this := set_minimapCanvas (Some (getCanvasContainer mm)) this in
  Some (call (On InsetCanvas "wheel" preventDefault) this).

(** [onAdd(map)], as far as the instance and the engine are concerned:
    [inset] is the map that [new this.mapGL.Map(...)] answers.  The DOM
    work of [createContainer], [enableResize], [enableMove] and
    [enableToggle] and the canvas attribute touch none of the modelled
    fields. *)
Definition onAdd (m : MapT) (inset : InsetMap) (this : Minimap) : Minimap :=
  let this := set_map (Some m) this in
  let opts := options this in
  let this := set_minimap (Some inset) this in
  let this := zoomAdjust this in
  let this :=
    if truthy (opts !! "maxBounds")
    then call (SetMaxBounds (opts !! "maxBounds")) this else this in
  call (On Inset "load" onLoad) this.

(** ** The second revision of the class

    Its [load] also binds the touch events to the same three pointer
    handlers.  Of the synchroniser itself only [moveTrackingRect] differs
    from [src/minimap.ts]: the polygon is regenerated between the
    translation and the restriction of the bounds. *)
Module Rev2.

Definition moveTrackingRect (offset : Q * Q) (this : Minimap)
  : option (option LngLatBounds * Minimap) :=
  match trackingRect this with
  | None => Some (None, this)
  | Some source =>
      match _data source with
      | None => Some (None, this)
      | Some data =>
          bounds ← properties_bounds data;
          let bounds := translate offset bounds in
          this ← convertBoundsToPoints bounds this;
          let bounds := restrict bounds in
          let this :=
            set_trackingRect
              (Some {| _data := Some {| properties_bounds := Some bounds |} |}) this in
          Some (Some bounds,
                call (SetData (Some bounds) (trackingRectCoordinates this)) this)
      end
  end.

Definition mouseMove : MapMouseEvent → Minimap → option Minimap :=
  mouseMove_with moveTrackingRect.

End Rev2.

(** ** Events

    The callbacks the engine delivers once [load] has bound them, each with
    its handler.  A viewport event carries the primary map's new view. *)
Inductive Event :=
| PointerMove (e : MapMouseEvent)
| PointerDown (e : MapMouseEvent)
| PointerUp
| PrimaryMove (view : MapT)
| PrimaryMoveEnd (view : MapT).

Definition handle (ev : Event) (this : Minimap) : option Minimap :=
  match ev with
  | PointerMove e => mouseMove e this
  | PointerDown e => Some (mouseDown e this)
  | PointerUp => mouseUp this
  | PrimaryMove view => update (set_map (Some view) this)
  | PrimaryMoveEnd view => Some (mapMoved (set_map (Some view) this))
  end.

(** Events are handled in delivery order. *)
Fixpoint run (evs : list Event) (this : Minimap) : option Minimap :=
  match evs with
  | [] => Some this
  | ev :: evs => this ← handle ev this; run evs this
  end.

(** ** Notions of the specification *)

(** The tracking rectangle of the specification: the corner enumeration
    NE, (SW.lng, NE.lat), SW, (NE.lng, SW.lat), NE as one closed ring. *)
Definition tracking_polygon (b : LngLatBounds) : Coordinates :=
  [[ [Some (lng (_ne b)); Some (lat (_ne b))];
     [Some (lng (_sw b)); Some (lat (_ne b))];
     [Some (lng (_sw b)); Some (lat (_sw b))];
     [Some (lng (_ne b)); Some (lat (_sw b))];
     [Some (lng (_ne b)); Some (lat (_ne b))] ]].

(** The invariant the specification states for geographic bounds. *)
Definition valid_bounds (b : LngLatBounds) : Prop :=
  lat (_sw b) <= lat (_ne b) ∧
  -180 <= lng (_ne b) <= 180 ∧ -180 <= lng (_sw b) <= 180 ∧
  -90 <= lat (_ne b) <= 90 ∧ -90 <= lat (_sw b) <= 90.

(** The two drag states, and the state machine over the cursor-over flag
    and the drag state that the handlers are compared with.  The flag takes
    the hit test of each pointer-move; a pointer-down reads the flag as the
    last pointer-move left it, as [mouseDown] does, and not the position of
    the press: [Idle → Dragging] on a pointer-down while the flag is set,
    [Dragging → Idle] on pointer-up. *)
Inductive DragState := Idle | Dragging.

Definition drag_step (s : bool * DragState) (ev : Event) : bool * DragState :=
  match ev, s with
  | PointerMove e, (_, d) => (bool_decide (0 < features_length e)%nat, d)
  | PointerDown _, (true, _) => (true, Dragging)
  | PointerUp, (over, _) => (over, Idle)
  | _, s => s
  end.

Definition drag_state (this : Minimap) : bool * DragState :=
  (isCursorOverFeature this, if isDragging this then Dragging else Idle).

(** Whether listener [h] is bound to [type] on [t] after the calls [cs]. *)
Global Instance Target_eq_dec : EqDecision Target.
Proof. solve_decision. Defined.
Global Instance Handler_eq_dec : EqDecision Handler.
Proof. solve_decision. Defined.

Definition registered (t : Target) (type : string) (h : Handler) (cs : list Call) : bool :=
  foldl (λ acc c,
           match c with
           | On t' type' h' =>
               if bool_decide (t' = t ∧ type' = type ∧ h' = h) then true else acc
           | Off t' type' h' =>
               if bool_decide (t' = t ∧ type' = type ∧ h' = h) then false else acc
           | _ => acc
           end) false cs.

(** ** States *)

(** The shape of the shared coordinate array: one ring of five points, each
    with at most a longitude and a latitude (empty after construction). *)
Definition tracking_shape (trc : Coordinates) : Prop :=
  ∃ p0 p1 p2 p3 p4,
    trc = [[p0; p1; p2; p3; p4]] ∧
    Forall (λ p : list (option Q), (length p ≤ 2)%nat) [p0; p1; p2; p3; p4].

(** The tracking source holds the bounds [b]. *)
Definition tracks (b : LngLatBounds) (this : Minimap) : Prop :=
  trackingRect this = Some {| _data := Some {| properties_bounds := Some b |} |}.

(** A control that has been added to a map and loaded. *)
Definition ready (this : Minimap) : Prop :=
  is_Some (map this) ∧ is_Some (minimap this) ∧ is_Some (minimapCanvas this) ∧
  (∃ b, tracks b this) ∧ tracking_shape (trackingRectCoordinates this).

(** Example views and events. *)
Definition view0 : MapT :=
  {| getZoom := 5;
     getBounds := {| _ne := {| lng := 10; lat := 10 |};
                     _sw := {| lng := -10; lat := -10 |} |};
     getCenter := {| lng := 0; lat := 0 |} |}.

Definition view_west : MapT :=
  {| getZoom := 5;
     getBounds := {| _ne := {| lng := -170; lat := 10 |};
                     _sw := {| lng := -175; lat := -10 |} |};
     getCenter := {| lng := -172.5; lat := 0 |} |}.

Definition view_east : MapT :=
  {| getZoom := 5;
     getBounds := {| _ne := {| lng := 175; lat := 10 |};
                     _sw := {| lng := 170; lat := -10 |} |};
     getCenter := {| lng := 172.5; lat := 0 |} |}.

Definition inset0 : InsetMap :=
  {| layers := []; sources := []; getCanvasContainer := {| cursor := "" |} |}.

Definition pointer (x y : Q) (hits : nat) : MapMouseEvent :=
  {| lngLat := {| lng := x; lat := y |}; features_length := hits |}.

(** A control with default options, added to a map showing [view] and
    loaded. *)
Definition loaded (view : MapT) : Minimap :=
  default (constructor None) (load (onAdd view inset0 (constructor None))).

(** The same, the pointer then moved onto the tracking rectangle at
    [(x, y)]. *)
Definition hovering (view : MapT) (x y : Q) : Minimap :=
  default (loaded view) (handle (PointerMove (pointer x y 1)) (loaded view)).

(** The same, the pointer then pressed there. *)
Definition pressed (view : MapT) (x y : Q) : Minimap :=
  mouseDown (pointer x y 1) (hovering view x y).

(** ** The DOM side of the control

    The container element, the toggle button and the two closures that
    [enableMove] and [enableResize] leave behind.  A style property holds
    the last value assigned to it that the browser took: the keywords and
    pixel lengths the methods write are always taken, a width or a height
    read from the options only when it is a length (see [assign_length]). *)

(** The icons written to the toggle button by [collapse] and [expand]. *)
Definition collapse_icon : string :=
  "<svg xmlns='http://www.w3.org/2000/svg' height='24' viewBox='0 -960 960 960' width='24'><path d='M200-200v-240h80v160h160v80H200Zm480-320v-160H520v-80h240v240h-80Z'/></svg>".

Definition expand_icon : string :=
  "<svg xmlns='http://www.w3.org/2000/svg' height='24' viewBox='0 -960 960 960' width='24'><path d='M440-440v240h-80v-160H200v-80h240Zm160-320v160h160v80H520v-240h80Z'/></svg>".

(** The container: the style properties the methods assign, and whether it
    has a parent node. *)
Record Container := {
  style_width : JsVal;
  style_height : JsVal;
  style_resize : JsVal;
  style_overflow : JsVal;
  parentNode : bool }.

Record ToggleButton := { innerHTML : string }.

Inductive Element := ContainerElement | ToggleButtonElement.

(** Calls on DOM nodes issued by [onRemove]. *)
Inductive DomCall :=
| RemoveEventListener (el : Element) (type : string) (h : Handler)
| RemoveChild.

(** The instance with its DOM fields: [core] holds the fields of
    [Minimap]. *)
Record Control := {
  core : Minimap;
  container : option Container;
  toggleButton : option ToggleButton;
  dom_calls : list DomCall }.

Definition set_isCollapsed (v : bool) (this : Minimap) : Minimap :=
  {| options := options this; map := map this; minimap := minimap this;
     minimapCanvas := minimapCanvas this; isCollapsed := v;
     isDragging := isDragging this;
     isCursorOverFeature := isCursorOverFeature this;
     currentPoint := currentPoint this; previousPoint := previousPoint this;
     trackingRect := trackingRect this;
     trackingRectCoordinates := trackingRectCoordinates this;
     calls := calls this |}.

(** [v || d] on a property read. *)
Definition js_or (v : option JsVal) (d : JsVal) : JsVal :=
  match v with
  | Some x => if truthy v then x else d
  | None => d
  end.

(** [style.width = v] and [style.height = v] for a value [v] that comes
    from the options: the browser keeps the former declaration when [v] is
    not a length.  [css_length] is the browser's test. *)
Definition assign_length (css_length : JsVal → bool) (v old : JsVal) : JsVal :=
  if css_length v then v else old.

(** A test that takes the pixel lengths only, a string of digits followed
    by [px], and nothing else. *)
Definition is_digit (a : Ascii.ascii) : bool :=
  Nat.leb 48 (Ascii.nat_of_ascii a) && Nat.leb (Ascii.nat_of_ascii a) 57.

Fixpoint px_digits (s : string) : bool :=
  match s with
  | String a s' =>
      if bool_decide (s' = "px") then is_digit a else is_digit a && px_digits s'
  | EmptyString => false
  end.

Definition px_length (v : JsVal) : bool :=
  match v with
  | JStr s => px_digits s
  | _ => false
  end.

(** [collapse()]. *)
Definition collapse (c : Control) : Control :=
  match container c, toggleButton c with
  | Some cont, Some _ =>
      let opts := options (core c) in
      if truthy (opts !! "toggleDisplay") then
        {| core := set_isCollapsed true (core c);
           container :=
             Some {| style_width := JStr "24px"; style_height := JStr "24px";
                     style_resize := JStr "none";
                     style_overflow := style_overflow cont;
                     parentNode := parentNode cont |};
           toggleButton := Some {| innerHTML := collapse_icon |};
           dom_calls := dom_calls c |}
      else c
  | _, _ => c
  end.

(** [expand()]. *)
Definition expand (css_length : JsVal → bool) (c : Control) : Control :=
  match container c, toggleButton c with
  | Some cont, Some _ =>
      let opts := options (core c) in
      if truthy (opts !! "toggleDisplay") then
        {| core := set_isCollapsed false (core c);
           container :=
             Some {| style_width :=
                       assign_length css_length
                         (js_or (opts !! "width") (JStr "320px"))
                         (style_width cont);
                     style_height :=
                       assign_length css_length
                         (js_or (opts !! "height") (JStr "180px"))
                         (style_height cont);
                     style_resize :=
                       if truthy (opts !! "enableResize")
                       then JStr "both" else JStr "none";
                     style_overflow := style_overflow cont;
                     parentNode := parentNode cont |};
           toggleButton := Some {| innerHTML := expand_icon |};
           dom_calls := dom_calls c |}
      else c
  | _, _ => c
  end.

(** [toggle()]. *)
Definition toggle (css_length : JsVal → bool) (c : Control) : Control :=
  if negb (isCollapsed (core c)) then collapse c else expand css_length c.

(** [onRemove()]. *)
Definition onRemove (c : Control) : Control :=
  let this := core c in
  let this :=
    match map this with
    | Some _ => call (Off Primary "move" onMainMapMove) this
    | None => this
    end in
  let this :=
    match minimap this with
    | Some _ =>
        let this := call (Off Inset "mousemove" onMouseMove) this in
        let this := call (Off Inset "mousedown" onMouseDown) this in
        call (Off Inset "mouseup" onMouseUp) this
    | None => this
    end in
  let this :=
    match minimapCanvas this with
    | Some _ => call (Off InsetCanvas "wheel" preventDefault) this
    | None => this
    end in
  let dom_calls :=
    match toggleButton c with
    | Some _ =>
        dom_calls c ++
        [RemoveEventListener ToggleButtonElement "click" preventDefault;
         RemoveEventListener ToggleButtonElement "click" onToggle]
    | None => dom_calls c
    end in
  let '(container, dom_calls) :=
    match container c with
    | Some cont =>
        let dom_calls :=
          dom_calls ++ [RemoveEventListener ContainerElement "contextmenu" preventDefault] in
        if parentNode cont then
          (Some {| style_width := style_width cont;
                   style_height := style_height cont;
                   style_resize := style_resize cont;
                   style_overflow := style_overflow cont;
                   parentNode := false |},
           dom_calls ++ [RemoveChild])
        else (Some cont, dom_calls)
    | None => (None, dom_calls)
    end in
  {| core := set_minimap None this; container := container;
     toggleButton := toggleButton c; dom_calls := dom_calls |}.

(** The closure of [enableMove]: its five local variables, the [left] and
    [top] it writes to the container's style (in px, [None] until written)
    and whether its two listeners are bound to [window]. *)
Module EnableMove.

Record MouseEvent := { clientX : Q; clientY : Q }.

Record t := {
  isDragging : bool;
  startX : Q;
  startY : Q;
  initialLeft : Q;
  initialTop : Q;
  style_left : option Q;
  style_top : option Q;
  window_mousemove : bool;
  window_mouseup : bool }.

(** The state [enableMove] leaves: nothing bound to [window] yet. *)
Definition init : t :=
  {| isDragging := false; startX := 0; startY := 0;
     initialLeft := 0; initialTop := 0;
     style_left := None; style_top := None;
     window_mousemove := false; window_mouseup := false |}.

Definition onMouseMove (e : MouseEvent) (s : t) : t :=
  if isDragging s then
    let newLeft := initialLeft s + (clientX e - startX s) in
    let newTop := initialTop s + (clientY e - startY s) in
    {| isDragging := isDragging s; startX := startX s; startY := startY s;
       initialLeft := initialLeft s; initialTop := initialTop s;
       style_left := Some newLeft; style_top := Some newTop;
       window_mousemove := window_mousemove s;
       window_mouseup := window_mouseup s |}
  else s.

Definition onMouseUp (s : t) : t :=
  {| isDragging := false; startX := startX s; startY := startY s;
     initialLeft := initialLeft s; initialTop := initialTop s;
     style_left := style_left s; style_top := style_top s;
     window_mousemove := false; window_mouseup := false |}.

(** [offsetLeft] and [offsetTop] are the container's, read from the layout
    when the handle is pressed. *)
Definition onMouseDown (e : MouseEvent) (offsetLeft offsetTop : Q) (s : t) : t :=
  {| isDragging := true; startX := clientX e; startY := clientY e;
     initialLeft := offsetLeft; initialTop := offsetTop;
     style_left := style_left s; style_top := style_top s;
     window_mousemove := true; window_mouseup := true |}.

(** The events that reach the closure: a press on the move handle, and the
    two [window] events, delivered to the listeners bound at that time. *)
Inductive Event :=
| HandleMouseDown (e : MouseEvent) (offsetLeft offsetTop : Q)
| WindowMouseMove (e : MouseEvent)
| WindowMouseUp.

Definition dispatch (s : t) (ev : Event) : t :=
  match ev with
  | HandleMouseDown e l u => onMouseDown e l u s
  | WindowMouseMove e => if window_mousemove s then onMouseMove e s else s
  | WindowMouseUp => if window_mouseup s then onMouseUp s else s
  end.

End EnableMove.

(** [enableMove()]: the closure exists when the container does and the
    option is set. *)
Definition enableMove (c : Control) : option EnableMove.t :=
  match container c with
  | Some _ =>
      if truthy (options (core c) !! "enableMove") then Some EnableMove.init
      else None
  | None => None
  end.

(** The closure of [enableResize]: the inset container it captured, whether
    that container's transition has been set to none, the listeners bound
    to [window] ([mouseup] is bound once, with [once: true]) and the number
    of [resize()] calls made on the inset map. *)
Module EnableResize.

Record t := {
  minimapContainer : bool;
  transition_none : bool;
  window_mousemove : bool;
  window_mouseup : bool;
  resize_calls : nat }.

Definition handleResize (this : Minimap) (s : t) : t :=
  match minimap this with
  | Some _ =>
      {| minimapContainer := minimapContainer s;
         transition_none := transition_none s;
         window_mousemove := window_mousemove s;
         window_mouseup := window_mouseup s;
         resize_calls := S (resize_calls s) |}
  | None => s
  end.

Definition onMouseDown (s : t) : t :=
  {| minimapContainer := minimapContainer s;
     transition_none := if minimapContainer s then true else transition_none s;
     window_mousemove := true;
     window_mouseup := window_mouseup s;
     resize_calls := resize_calls s |}.

Definition onMouseUp (s : t) : t :=
  {| minimapContainer := minimapContainer s;
     transition_none := transition_none s;
     window_mousemove := false;
     window_mouseup := window_mouseup s;
     resize_calls := resize_calls s |}.

(** A press on the container, and the two [window] events.  A listener
    bound with [once: true] is unbound when it has run. *)
Inductive Event := ContainerMouseDown | WindowMouseMove | WindowMouseUp.

Definition dispatch (this : Minimap) (s : t) (ev : Event) : t :=
  match ev with
  | ContainerMouseDown => onMouseDown s
  | WindowMouseMove => if window_mousemove s then handleResize this s else s
  | WindowMouseUp =>
      if window_mouseup s then
        let s := onMouseUp s in
        {| minimapContainer := minimapContainer s;
           transition_none := transition_none s;
           window_mousemove := window_mousemove s;
           window_mouseup := false;
           resize_calls := resize_calls s |}
      else s
  end.

End EnableResize.

(** [enableResize()]: the style it assigns to the container and the closure
    it leaves. *)
Definition enableResize (c : Control) : Control * option EnableResize.t :=
  match container c with
  | Some cont =>
      if truthy (options (core c) !! "enableResize") then
        ({| core := core c;
            container :=
              Some {| style_width := style_width cont;
                      style_height := style_height cont;
                      style_resize := JStr "both";
                      style_overflow := JStr "hidden";
                      parentNode := parentNode cont |};
            toggleButton := toggleButton c; dom_calls := dom_calls c |},
         Some {| EnableResize.minimapContainer :=
                   bool_decide (is_Some (minimap (core c)));
                 EnableResize.transition_none := false;
                 EnableResize.window_mousemove := false;
                 EnableResize.window_mouseup := true;
                 EnableResize.resize_calls := 0 |})
      else (c, None)
  | None => (c, None)
  end.

(** ** Further notions *)

(** The bounds that the restriction of [moveTrackingRect] leaves alone. *)
Definition within_limits (b : LngLatBounds) : Prop :=
  lat (_ne b) <= 90 ∧ lng (_ne b) <= 180 ∧
  -90 <= lat (_sw b) ∧ -180 <= lng (_sw b).

(** The extent of bounds in longitude and in latitude. *)

(** An inset map that carries tracking layers already, a config and the
    control added with them. *)
Definition inset1 : InsetMap :=
  {| layers := ["water"; "trackingRectFill"; "roads"];
     sources := ["trackingRect"; "tiles"];
     getCanvasContainer := {| cursor := "" |} |}.

Definition config1 : gmap string JsVal :=
  list_to_map [("scrollZoom", JBool true); ("toggleDisplay", JBool true);
               ("disableMinimapMoveOnDrag", JBool true);
               ("enableResize", JBool true); ("enableMove", JBool true)].

Definition added1 : Minimap := onAdd view0 inset1 (constructor (Some config1)).

(** The pointer affordance agrees with the cursor-over flag. *)
Definition shows_move (this : Minimap) : Prop :=
  isCursorOverFeature this = true → minimapCanvas this = Some {| cursor := "move" |}.

(** A control loaded with [config1]. *)
Definition loaded1 : Minimap := default added1 (load added1).

(** The same with its DOM fields, as [onAdd] leaves them with
    [toggleDisplay] set. *)
Definition control1 : Control :=
  {| core := loaded1;
     container :=
       Some {| style_width := JStr "320px"; style_height := JStr "180px";
               style_resize := JStr "none"; style_overflow := JStr "visible";
               parentNode := true |};
     toggleButton := Some {| innerHTML := expand_icon |};
     dom_calls := [] |}.

(** [loaded1] with the pointer pressed on the rectangle at (0, 0). *)
Definition pressed1 : Minimap :=
  mouseDown (pointer 0 0 1)
    (default loaded1 (handle (PointerMove (pointer 0 0 1)) loaded1)).

(** [toggle] has something to act on. *)
Definition toggle_enabled (c : Control) : Prop :=
  is_Some (container c) ∧ is_Some (toggleButton c) ∧
  truthy (options (core c) !! "toggleDisplay") = true.

(** ** Tactics *)

(** Reduce the field assignments of a method body, innermost first, down
    to one record. *)
Ltac setters :=
  cbv beta iota zeta delta
    [call set_minimapCanvas set_minimap set_map set_isDragging
     set_isCursorOverFeature set_currentPoint set_previousPoint
     set_trackingRect set_trackingRectCoordinates
     options map minimap minimapCanvas isCollapsed isDragging
     isCursorOverFeature currentPoint previousPoint trackingRect
     trackingRectCoordinates calls];
  cbn [mbind option_bind options map minimap minimapCanvas isCollapsed
       isDragging isCursorOverFeature currentPoint previousPoint trackingRect
       trackingRectCoordinates calls].

(** Replace the instance by the record of its fields. *)
Ltac fields_in H :=
  cbn [options map minimap minimapCanvas isCollapsed isDragging
       isCursorOverFeature currentPoint previousPoint trackingRect
       trackingRectCoordinates calls] in H.

Ltac literal this :=
  destruct this as [opts mp mi cnv col drag over cur prev tr trc cs];
  repeat match goal with H : _ |- _ => progress fields_in H end;
  cbn [options map minimap minimapCanvas isCollapsed isDragging
       isCursorOverFeature currentPoint previousPoint trackingRect
       trackingRectCoordinates calls].

(** ** Properties *)

Lemma point_write (x y : Q) (p : list (option Q)) :
  (length p ≤ 2)%nat → array_set 1 y (array_set 0 x p) = [Some x; Some y].
Proof.
  destruct p as [|a [|b [|c p]]]; cbn; intros H; try reflexivity; lia.
Qed.

Lemma tracking_shape_polygon b : tracking_shape (tracking_polygon b).
Proof.
  do 5 eexists. split; [reflexivity|]. repeat constructor.
Qed.

Lemma convertBoundsToPoints_shape b this :
  tracking_shape (trackingRectCoordinates this) →
  convertBoundsToPoints b this
  = Some (set_trackingRectCoordinates (tracking_polygon b) this).
Proof.
  intros (p0 & p1 & p2 & p3 & p4 & Htrc & Hlen).
  unfold convertBoundsToPoints. rewrite Htrc. cbn.
  repeat (apply Forall_cons in Hlen as [? Hlen]).
  unfold tracking_polygon. rewrite !point_write by assumption. reflexivity.
Qed.


(** *** The polygon *)

(** C2. Whatever the bounds [B], [convertBoundsToPoints(B)] leaves one ring
    of exactly five points in the shared array, the first equal to the last,
    visiting (NE.lng, NE.lat), (SW.lng, NE.lat), (SW.lng, SW.lat),
    (NE.lng, SW.lat), (NE.lng, NE.lat) in this order. *)
Theorem convertBoundsToPoints_closed_ring (B : LngLatBounds) (this : Minimap) :
  tracking_shape (trackingRectCoordinates this) →
  ∃ this' ring,
    convertBoundsToPoints B this = Some this' ∧
    trackingRectCoordinates this' = [ring] ∧
    length ring = 5%nat ∧
    ring !! 0%nat = ring !! 4%nat ∧
    ring = [ [Some (lng (_ne B)); Some (lat (_ne B))];
             [Some (lng (_sw B)); Some (lat (_ne B))];
             [Some (lng (_sw B)); Some (lat (_sw B))];
             [Some (lng (_ne B)); Some (lat (_sw B))];
             [Some (lng (_ne B)); Some (lat (_ne B))] ].
Proof.
  intros Hshape. do 2 eexists.
  split; [apply convertBoundsToPoints_shape, Hshape|].
  repeat split; reflexivity.
Qed.

Lemma convertBoundsToPoints_closed_ring_witness :
  tracking_shape (trackingRectCoordinates (constructor None)) ∧
  ∃ this' ring,
    convertBoundsToPoints (getBounds view0) (constructor None) = Some this' ∧
    trackingRectCoordinates this' = [ring] ∧
    length ring = 5%nat ∧
    ring !! 0%nat = ring !! 4%nat ∧
    ring = [ [Some 10; Some 10]; [Some (-10); Some 10]; [Some (-10); Some (-10)];
             [Some 10; Some (-10)]; [Some 10; Some 10] ].
Proof.
  assert (Hshape : tracking_shape (trackingRectCoordinates (constructor None))).
  { do 5 eexists. split; [reflexivity|]. repeat constructor. }
  split; [exact Hshape|].
  exact (convertBoundsToPoints_closed_ring (getBounds view0) (constructor None) Hshape).
Defined.

(** *** Dragging the rectangle *)

Lemma moveTrackingRect_tracks offset b this :
  tracks b this →
  moveTrackingRect offset this
  = let b' := restrict (translate offset b) in
    let this' :=
      set_trackingRect
        (Some {| _data := Some {| properties_bounds := Some b' |} |}) this in
    Some (Some b', call (SetData (Some b') (trackingRectCoordinates this)) this').
Proof.
  unfold tracks, moveTrackingRect. intros ->. reflexivity.
Qed.

(** C4. Whatever the stored bounds and the offset, [moveTrackingRect]
    returns, and the bounds it stores and returns, the translated bounds
    after the restriction, have NE.lat ≤ 90, NE.lng ≤ 180, SW.lat ≥ -90 and
    SW.lng ≥ -180. *)
Theorem moveTrackingRect_within_limits
    (offset : Q * Q) (b : LngLatBounds) (this : Minimap) :
  tracks b this →
  ∃ b' this',
    moveTrackingRect offset this = Some (Some b', this') ∧
    tracks b' this' ∧
    b' = restrict (translate offset b) ∧
    lat (_ne b') <= 90 ∧ lng (_ne b') <= 180 ∧
    -90 <= lat (_sw b') ∧ -180 <= lng (_sw b').
Proof.
  intros Hb. rewrite (moveTrackingRect_tracks offset b this Hb). cbn.
  do 2 eexists. split; [reflexivity|]. split; [reflexivity|].
  split; [reflexivity|]. cbn.
  repeat split;
    [apply Q.le_min_r | apply Q.le_min_r | apply Q.le_max_r | apply Q.le_max_r].
Qed.

Lemma moveTrackingRect_within_limits_witness :
  tracks (getBounds view0) (pressed view0 0 0) ∧
  ∃ b' this',
    moveTrackingRect (5, 0) (pressed view0 0 0) = Some (Some b', this') ∧
    tracks b' this' ∧
    b' = restrict (translate (5, 0) (getBounds view0)) ∧
    lat (_ne b') <= 90 ∧ lng (_ne b') <= 180 ∧
    -90 <= lat (_sw b') ∧ -180 <= lng (_sw b').
Proof.
  assert (Hb : tracks (getBounds view0) (pressed view0 0 0))
    by (vm_compute; reflexivity).
  split; [exact Hb|].
  exact (moveTrackingRect_within_limits (5, 0) (getBounds view0) (pressed view0 0 0) Hb).
Defined.

(** The drag example of the specification: offset (5, 0) on
    NE(10,10)/SW(-10,-10) gives NE(5,10)/SW(-15,-10), nothing restricted. *)
Example restrict_translate_example :
  restrict (translate (5, 0) (getBounds view0))
  = {| _ne := {| lng := 5; lat := 10 |}; _sw := {| lng := -15; lat := -10 |} |}.
Proof. vm_compute. reflexivity. Qed.

(** The second revision keeps the same limits. *)
Lemma Rev2_restriction_limits
    (offset : Q * Q) (b : LngLatBounds) (this : Minimap) :
  tracks b this → tracking_shape (trackingRectCoordinates this) →
  ∃ b' this',
    Rev2.moveTrackingRect offset this = Some (Some b', this') ∧
    tracks b' this' ∧
    b' = restrict (translate offset b) ∧
    trackingRectCoordinates this' = tracking_polygon (translate offset b) ∧
    lat (_ne b') <= 90 ∧ lng (_ne b') <= 180 ∧
    -90 <= lat (_sw b') ∧ -180 <= lng (_sw b').
Proof.
  unfold tracks, Rev2.moveTrackingRect. intros -> Hshape. cbn.
  rewrite (convertBoundsToPoints_shape _ _ Hshape). cbn.
  do 2 eexists. repeat split;
    [apply Q.le_min_r | apply Q.le_min_r | apply Q.le_max_r | apply Q.le_max_r].
Qed.

(** *** Viewport changes *)

(** C7. While a drag is in progress [update] returns the instance as it
    is: the stored bounds, the polygon and the calls issued so far (hence
    the inset zoom) are those before the call, also when the primary map
    reports a new view. *)
Theorem update_while_dragging (this : Minimap) :
  isDragging this = true →
  update this = Some this ∧
  ∀ view, ∃ this',
    handle (PrimaryMove view) this = Some this' ∧
    trackingRect this' = trackingRect this ∧
    trackingRectCoordinates this' = trackingRectCoordinates this ∧
    calls this' = calls this.
Proof.
  intros Hdrag. split.
  - unfold update. rewrite Hdrag. reflexivity.
  - intros view. eexists. cbn. unfold update. cbn. rewrite Hdrag.
    split; [reflexivity|]. repeat split.
Qed.

Lemma update_while_dragging_witness :
  isDragging (pressed view0 0 0) = true ∧
  update (pressed view0 0 0) = Some (pressed view0 0 0) ∧
  ∀ view, ∃ this',
    handle (PrimaryMove view) (pressed view0 0 0) = Some this' ∧
    trackingRect this' = trackingRect (pressed view0 0 0) ∧
    trackingRectCoordinates this' = trackingRectCoordinates (pressed view0 0 0) ∧
    calls this' = calls (pressed view0 0 0).
Proof.
  assert (Hdrag : isDragging (pressed view0 0 0) = true)
    by (vm_compute; reflexivity).
  split; [exact Hdrag|].
  exact (update_while_dragging (pressed view0 0 0) Hdrag).
Defined.

Lemma update_idle (this : Minimap) (m : MapT) (source : GeoJSONSource) (data : Feature) :
  isDragging this = false → map this = Some m → is_Some (minimap this) →
  trackingRect this = Some source → _data source = Some data →
  tracking_shape (trackingRectCoordinates this) →
  update this
  = Some
      {| options := options this; map := map this; minimap := minimap this;
         minimapCanvas := minimapCanvas this; isCollapsed := isCollapsed this;
         isDragging := false;
         isCursorOverFeature := isCursorOverFeature this;
         currentPoint := currentPoint this; previousPoint := previousPoint this;
         trackingRect :=
           Some {| _data := Some {| properties_bounds := Some (getBounds m) |} |};
         trackingRectCoordinates := tracking_polygon (getBounds m);
         calls :=
           calls this ++
           [SetZoom (Qplus (getZoom m) <$> as_number (options this !! "zoomLevelOffset"));
            SetData (Some (getBounds m)) (tracking_polygon (getBounds m))] |}.
Proof.
  intros Hdrag Hmap [mm Hmm] Hsrc Hdata Hshape.
  literal this. subst.
  unfold update, zoomAdjust, setTrackingRectBounds.
  cbn -[lookup Qplus convertBoundsToPoints]. rewrite Hdata.
  cbn -[lookup Qplus convertBoundsToPoints].
  rewrite convertBoundsToPoints_shape by exact Hshape.
  setters. rewrite <- app_assoc. reflexivity.
Qed.

(** [zoomAdjust] alone: with both maps present it issues one [setZoom]. *)
Lemma zoomAdjust_sets_zoom (this : Minimap) (m : MapT) (offset : Q) :
  map this = Some m → is_Some (minimap this) →
  options this !! "zoomLevelOffset" = Some (JNum offset) →
  calls (zoomAdjust this) = calls this ++ [SetZoom (Some (getZoom m + offset))].
Proof.
  intros Hm [mm Hmm] Hoff. unfold zoomAdjust. rewrite Hm, Hmm, Hoff.
  reflexivity.
Qed.

(** C9. A viewport change of the primary map handled outside a drag sets
    the inset zoom to the primary zoom plus [zoomLevelOffset] and pushes the
    polygon of the primary bounds; with zoom 5, offset -3 and bounds
    NE(10,10)/SW(-10,-10) the zoom set is 2 and the ring is (10,10),
    (-10,10), (-10,-10), (10,-10), (10,10). *)
Theorem update_outside_drag
    (this : Minimap) (view : MapT) (offset : Q) (source : GeoJSONSource) (data : Feature) :
  isDragging this = false →
  is_Some (minimap this) →
  options this !! "zoomLevelOffset" = Some (JNum offset) →
  trackingRect this = Some source → _data source = Some data →
  tracking_shape (trackingRectCoordinates this) →
  ∃ this',
    handle (PrimaryMove view) this = Some this' ∧
    calls this'
    = calls this ++
      [SetZoom (Some (getZoom view + offset));
       SetData (Some (getBounds view)) (tracking_polygon (getBounds view))] ∧
    tracks (getBounds view) this' ∧
    trackingRectCoordinates this' = tracking_polygon (getBounds view) ∧
    (getZoom view = 5 → offset = -3 → getBounds view = getBounds view0 →
     calls this'
     = calls this ++
       [SetZoom (Some 2);
        SetData (Some (getBounds view0))
          [[ [Some 10; Some 10]; [Some (-10); Some 10]; [Some (-10); Some (-10)];
             [Some 10; Some (-10)]; [Some 10; Some 10] ]]] ∧
     trackingRectCoordinates this'
     = [[ [Some 10; Some 10]; [Some (-10); Some 10]; [Some (-10); Some (-10)];
          [Some 10; Some (-10)]; [Some 10; Some 10] ]]).
Proof.
  intros Hdrag Hmm Hoff Hsrc Hdata Hshape.
  eexists. split.
  { cbn [handle].
    apply (update_idle (set_map (Some view) this) view source data);
      try assumption; reflexivity. }
  literal this. setters. rewrite Hoff. cbn [as_number fmap option_fmap option_map].
  split; [reflexivity|]. split; [reflexivity|]. split; [reflexivity|].
  intros Hzoom -> Hbounds. rewrite Hzoom, Hbounds. split; reflexivity.
Qed.

Lemma update_outside_drag_witness :
  ∃ this',
    handle (PrimaryMove view0) (loaded view_west) = Some this' ∧
    calls this'
    = calls (loaded view_west) ++
      [SetZoom (Some 2);
       SetData (Some (getBounds view0))
         [[ [Some 10; Some 10]; [Some (-10); Some 10]; [Some (-10); Some (-10)];
            [Some 10; Some (-10)]; [Some 10; Some 10] ]]] ∧
    trackingRectCoordinates this'
    = [[ [Some 10; Some 10]; [Some (-10); Some 10]; [Some (-10); Some (-10)];
         [Some 10; Some (-10)]; [Some 10; Some 10] ]].
Proof.
  destruct (update_outside_drag (loaded view_west) view0 (-3)
              {| _data := Some {| properties_bounds := Some (getBounds view_west) |} |}
              {| properties_bounds := Some (getBounds view_west) |})
    as (this' & Hupd & _ & _ & _ & Hex).
  - vm_compute. reflexivity.
  - vm_compute. eexists. reflexivity.
  - vm_compute. reflexivity.
  - vm_compute. reflexivity.
  - reflexivity.
  - vm_compute. do 5 eexists. split; [reflexivity|]. repeat constructor; cbn; lia.
  - exists this'. split; [exact Hupd|]. apply Hex; reflexivity.
Defined.

(** *** Options *)

Lemma default_lookup_zoomLevelOffset :
  default_options !! "zoomLevelOffset" = Some (JNum (-3)).
Proof. vm_compute. reflexivity. Qed.

Lemma default_lookup_interaction i :
  i ∈ interactions → default_options !! i = Some (JBool false).
Proof.
  unfold interactions. intros Hi.
  repeat (apply elem_of_cons in Hi as [->|Hi]; [vm_compute; reflexivity|]).
  apply elem_of_nil in Hi. contradiction.
Qed.

(** The loop of [load] issues calls and changes nothing else; it disables
    every handler of [l] whose option is false. *)
Lemma disable_loop_calls (l : list string) (this : Minimap) :
  ∃ cs,
    foldl (λ this interaction,
             if negb (truthy (options this !! interaction))
             then call (Disable interaction) this else this) this l
    = {| options := options this; map := map this; minimap := minimap this;
         minimapCanvas := minimapCanvas this; isCollapsed := isCollapsed this;
         isDragging := isDragging this;
         isCursorOverFeature := isCursorOverFeature this;
         currentPoint := currentPoint this; previousPoint := previousPoint this;
         trackingRect := trackingRect this;
         trackingRectCoordinates := trackingRectCoordinates this;
         calls := calls this ++ cs |} ∧
    ((∀ i, i ∈ l → options this !! i = Some (JBool false)) → cs = Disable <$> l).
Proof.
  induction l as [|i l IH] using rev_ind.
  - exists []. literal this. cbn [foldl]. rewrite app_nil_r. split; reflexivity.
  - destruct IH as (cs0 & Heq & Hcs).
    rewrite foldl_app. cbn [foldl]. rewrite Heq. literal this.
    destruct (truthy (opts !! i)) eqn:Hi; cbn [negb].
    + exists cs0. split; [reflexivity|]. intros Hall.
      rewrite Hall in Hi; [discriminate|]. apply elem_of_app. right. set_solver.
    + exists (cs0 ++ [Disable i]). setters. rewrite app_assoc.
      split; [reflexivity|].
      intros Hall. rewrite fmap_app, Hcs; [reflexivity|].
      intros j Hj. apply Hall, elem_of_app. left. exact Hj.
Qed.

(** [load] on a control that has been added to a map: it returns, its
    first calls are those of the loop over the interactions, and it leaves a
    control that is ready and tracks the primary bounds. *)
Lemma load_ready (this : Minimap) (m : MapT) (mm : InsetMap) :
  map this = Some m → minimap this = Some mm → isDragging this = false →
  tracking_shape (trackingRectCoordinates this) →
  ∃ this' cs rest,
    load this = Some this' ∧
    calls this' = calls this ++ cs ++ rest ∧
    (options this = default_options → cs = Disable <$> interactions) ∧
    ready this' ∧ tracks (getBounds m) this' ∧ isDragging this' = false ∧
    options this' = options this.
Proof.
  intros Hmap Hmm Hdrag Hshape. unfold load. rewrite Hmm. cbn [mbind option_bind].
  unfold disable_interactions.
  destruct (disable_loop_calls interactions this) as (cs0 & -> & Hcs).
  literal this. subst.
  destruct mm as [ls ss cv]. cbn [layers sources removeLayer removeSource].
  destruct (bool_decide ("trackingRectOutline" ∈ ls));
    cbn [layers sources removeLayer removeSource];
    (destruct (bool_decide ("trackingRectFill" ∈ _));
     cbn [layers sources removeLayer removeSource];
     (destruct (bool_decide ("trackingRect" ∈ _)))).
  all: setters.
  all: erewrite update_idle;
         [| reflexivity | reflexivity | eexists; reflexivity | reflexivity
          | reflexivity | exact Hshape ].
  all: setters.
  all: eexists; exists cs0; eexists; split; [reflexivity|].
  all: setters; rewrite <- !app_assoc.
  all: split; [reflexivity|].
  all: split; [intros Hopts; apply Hcs; intros i Hi; rewrite Hopts;
               apply default_lookup_interaction, Hi|].
  all: unfold ready, tracks; setters.
  all: repeat split; try (eexists; reflexivity); apply tracking_shape_polygon.
Qed.

Lemma onAdd_fields (view : MapT) (inset : InsetMap) (this : Minimap) :
  options (onAdd view inset this) = options this ∧
  map (onAdd view inset this) = Some view ∧
  minimap (onAdd view inset this) = Some inset ∧
  isDragging (onAdd view inset this) = isDragging this ∧
  trackingRectCoordinates (onAdd view inset this) = trackingRectCoordinates this.
Proof.
  literal this. unfold onAdd, zoomAdjust. setters.
  destruct (truthy _); setters; repeat split.
Qed.

(** C10. Constructed without a config, the control has [zoomLevelOffset]
    -3 and the seven inset interaction options false, and [load] then
    disables each of the seven handlers; constructed with a config, every
    option present in the config has the config's value and every other
    option its default. *)
Theorem constructor_defaults :
  options (constructor None) !! "zoomLevelOffset" = Some (JNum (-3)) ∧
  (∀ i, i ∈ ["dragPan"; "scrollZoom"; "boxZoom"; "dragRotate"; "keyboard";
             "doubleClickZoom"; "touchZoomRotate"] →
        options (constructor None) !! i = Some (JBool false)) ∧
  (∀ view inset, ∃ this' rest,
      load (onAdd view inset (constructor None)) = Some this' ∧
      calls this'
      = calls (onAdd view inset (constructor None)) ++
        [Disable "dragPan"; Disable "scrollZoom"; Disable "boxZoom";
         Disable "dragRotate"; Disable "keyboard"; Disable "doubleClickZoom";
         Disable "touchZoomRotate"] ++ rest) ∧
  (∀ (config : gmap string JsVal) k,
      options (constructor (Some config)) !! k
      = match config !! k with
        | Some v => Some v
        | None => options (constructor None) !! k
        end).
Proof.
  split; [exact default_lookup_zoomLevelOffset|]. split; [|split].
  - exact default_lookup_interaction.
  - intros view inset.
    destruct (onAdd_fields view inset (constructor None))
      as (Hopts & Hmap & Hmm & Hdrag & Htrc).
    destruct (load_ready (onAdd view inset (constructor None)) view inset)
      as (this' & cs & rest & Hload & Hcalls & Hcs & _).
    + exact Hmap.
    + exact Hmm.
    + rewrite Hdrag. reflexivity.
    + rewrite Htrc. do 5 eexists. split; [reflexivity|]. repeat constructor; lia.
    + exists this', rest. split; [exact Hload|].
      rewrite Hcalls, Hcs; [reflexivity|]. rewrite Hopts. reflexivity.
  - intros config k.
    change (options (constructor (Some config))) with (config ∪ default_options).
    change (options (constructor None)) with default_options.
    destruct (config !! k) as [v|] eqn:Hk.
    + apply lookup_union_Some_l. exact Hk.
    + apply lookup_union_r. exact Hk.
Qed.

(** *** Pointer events *)

(** [mouseMove] on a ready control, in full. *)
Lemma mouseMove_ready (e : MapMouseEvent) (this : Minimap) (b : LngLatBounds) :
  is_Some (map this) → is_Some (minimap this) → is_Some (minimapCanvas this) →
  tracks b this →
  let over := bool_decide (0 < features_length e)%nat in
  let canvas :=
    if isCursorOverFeature this && over then minimapCanvas this
    else Some {| cursor := if over then "move" else "" |} in
  let point := (lng (lngLat e), lat (lngLat e)) in
  let b' :=
    restrict (translate ((currentPoint this).1 - point.1,
                         (currentPoint this).2 - point.2) b) in
  mouseMove e this
  = Some
      (if isDragging this then
         {| options := options this; map := map this; minimap := minimap this;
            minimapCanvas := canvas; isCollapsed := isCollapsed this;
            isDragging := true; isCursorOverFeature := over;
            currentPoint := point; previousPoint := currentPoint this;
            trackingRect :=
              Some {| _data := Some {| properties_bounds := Some b' |} |};
            trackingRectCoordinates := trackingRectCoordinates this;
            calls :=
              calls this ++
              SetData (Some b') (trackingRectCoordinates this) ::
              (if truthy (options this !! "disableMinimapMoveOnDrag") then []
               else [FitBounds (Some b') 80]) |}
       else
         {| options := options this; map := map this; minimap := minimap this;
            minimapCanvas := canvas; isCollapsed := isCollapsed this;
            isDragging := false; isCursorOverFeature := over;
            currentPoint := currentPoint this;
            previousPoint := previousPoint this;
            trackingRect := trackingRect this;
            trackingRectCoordinates := trackingRectCoordinates this;
            calls := calls this |}).
Proof.
  intros [m Hm] [mm Hmm] [cv Hcv] Hb. unfold tracks in Hb.
  literal this. subst.
  unfold mouseMove, mouseMove_with, moveTrackingRect.
  destruct over, drag, (bool_decide (0 < features_length e)%nat);
    setters; cbn [andb negb _data properties_bounds mbind option_bind];
    try reflexivity;
    setters; destruct (truthy (opts !! "disableMinimapMoveOnDrag"));
    cbn [negb]; setters; rewrite <- ?app_assoc; reflexivity.
Qed.

(** [mouseUp] on a ready control, in full. *)
Lemma mouseUp_ready (this : Minimap) (b : LngLatBounds) :
  is_Some (map this) → is_Some (minimap this) → tracks b this →
  mouseUp this
  = Some
      (if isDragging this then
         {| options := options this; map := map this; minimap := minimap this;
            minimapCanvas := minimapCanvas this; isCollapsed := isCollapsed this;
            isDragging := false;
            isCursorOverFeature := isCursorOverFeature this;
            currentPoint := currentPoint this;
            previousPoint := previousPoint this;
            trackingRect := trackingRect this;
            trackingRectCoordinates := trackingRectCoordinates this;
            calls :=
              calls this ++
              [Off Primary "move" onMainMapMove; FitBounds (Some b) 500] |}
       else this).
Proof.
  intros [m Hm] [mm Hmm] Hb. unfold tracks in Hb. literal this. subst.
  unfold mouseUp. destruct drag; setters; [|reflexivity].
  cbn [_data properties_bounds mbind option_bind]. setters.
  rewrite <- app_assoc. reflexivity.
Qed.

(** Every event is handled on a ready control, leaves it ready, and moves
    the two drag flags as [drag_step] does. *)
Lemma handle_ready (ev : Event) (this : Minimap) :
  ready this →
  ∃ this',
    handle ev this = Some this' ∧ ready this' ∧
    drag_state this' = drag_step (drag_state this) ev.
Proof.
  intros (Hm & Hmm & Hcv & [b Hb] & Hshape). destruct ev as [e|e| |view|view].
  - cbn [handle]. rewrite (mouseMove_ready e this b) by assumption.
    eexists. split; [reflexivity|].
    unfold ready, tracks, drag_state in *. literal this. subst.
    destruct drag; setters; cbn [drag_step];
      (split; [|reflexivity]); repeat split; try assumption;
      try (eexists; reflexivity);
      destruct (over && _); [assumption | eexists; reflexivity
                            | assumption | eexists; reflexivity].
  - cbn [handle]. eexists. split; [reflexivity|].
    unfold ready, tracks, drag_state, mouseDown in *. literal this. subst.
    destruct over; setters; cbn [drag_step];
      (split; [|reflexivity]); repeat split; try assumption;
      eexists; reflexivity.
  - cbn [handle]. rewrite (mouseUp_ready this b) by assumption.
    eexists. split; [reflexivity|].
    unfold ready, tracks, drag_state in *. literal this. subst.
    destruct drag; setters; cbn [drag_step];
      (split; [|reflexivity]); repeat split; try assumption;
      eexists; reflexivity.
  - cbn [handle]. unfold ready, tracks, drag_state in *.
    destruct (isDragging this) eqn:Hdrag.
    + unfold update. literal this. subst. setters.
      eexists. split; [reflexivity|]. setters. cbn [drag_step].
      (split; [|reflexivity]); repeat split; try assumption;
        eexists; reflexivity.
    + erewrite (update_idle (set_map (Some view) this) view);
        [| exact Hdrag | reflexivity | exact Hmm | exact Hb | reflexivity
         | exact Hshape ].
      eexists. split; [reflexivity|]. literal this. subst. setters.
      cbn [drag_step].
      (split; [|reflexivity]); repeat split; try assumption;
        try (eexists; reflexivity); apply tracking_shape_polygon.
  - cbn [handle]. eexists. split; [reflexivity|].
    unfold ready, tracks, drag_state, mapMoved in *.
    destruct Hmm as [mm Hmm]. literal this. subst. setters.
    cbn [drag_step].
    destruct drag; (split; [|reflexivity]); repeat split; try assumption;
      eexists; reflexivity.
Qed.

(** C8, as the code has it. On a ready control every sequence of events
    is handled to the end, and the cursor-over flag and the dragging flag
    follow [drag_step]: the flag takes the hit test of each pointer-move, a
    pointer-down starts a drag exactly when the flag, as the last
    pointer-move left it, is set, whatever the position of the press, and
    only a pointer-up ends a drag. *)
Theorem drag_follows_state_machine (evs : list Event) (this : Minimap) :
  ready this →
  ∃ this',
    run evs this = Some this' ∧ ready this' ∧
    drag_state this' = foldl drag_step (drag_state this) evs.
Proof.
  revert this. induction evs as [|ev evs IH]; intros this Hready.
  - exists this. split; [reflexivity|]. split; [assumption|reflexivity].
  - destruct (handle_ready ev this Hready) as (this1 & Hev & Hready1 & Hstep).
    destruct (IH this1 Hready1) as (this' & Hrun & Hready' & Hsteps).
    exists this'. cbn [run foldl]. rewrite Hev. cbn [mbind option_bind].
    rewrite <- Hstep. split; [assumption|]. split; assumption.
Qed.

Lemma drag_follows_state_machine_witness :
  let evs :=
    [PointerMove (pointer 40 0 0); PointerDown (pointer 40 0 0);
     PointerMove (pointer 0 0 1); PointerDown (pointer 0 0 1);
     PointerMove (pointer 5 0 1); PrimaryMove view_west; PointerUp] in
  ready (loaded view0) ∧
  ∃ this',
    run evs (loaded view0) = Some this' ∧ ready this' ∧
    drag_state this' = foldl drag_step (drag_state (loaded view0)) evs.
Proof.
  intros evs.
  assert (Hready : ready (loaded view0)).
  { vm_compute. repeat split; try (eexists; reflexivity).
    do 5 eexists. split; [reflexivity|]. repeat constructor. }
  split; [exact Hready|].
  exact (drag_follows_state_machine evs (loaded view0) Hready).
Defined.

(** C8, as stated, fails: after a pointer-move over the rectangle at
    (0, 0), a pointer-down at (40, 0), where the hit test finds no feature,
    takes the idle control into a drag. *)
Lemma pointer_down_off_rectangle_counterexample :
  ¬ (features_length (pointer 40 0 0) = 0%nat →
     isDragging (hovering view0 0 0) = false →
     isDragging (mouseDown (pointer 40 0 0) (hovering view0 0 0)) = false).
Proof.
  intros H.
  assert (E : isDragging (mouseDown (pointer 40 0 0) (hovering view0 0 0)) = true)
    by (vm_compute; reflexivity).
  rewrite H in E; [discriminate E | reflexivity | vm_compute; reflexivity].
Qed.

(** The same departure along a run of events, from the loaded control. *)
Lemma run_pointer_down_off_rectangle :
  isDragging <$> run [PointerMove (pointer 0 0 1); PointerDown (pointer 40 0 0)]
                     (loaded view0)
  = Some true.
Proof. vm_compute. reflexivity. Qed.

(** A pointer-down while the cursor-over flag is unset changes nothing,
    whatever the event. *)
Lemma mouseDown_off_rectangle (e : MapMouseEvent) (this : Minimap) :
  isCursorOverFeature this = false → mouseDown e this = this.
Proof. intros H. unfold mouseDown. rewrite H. reflexivity. Qed.

(** C6, as the code has it. A pointer-down that arrives while the
    cursor-over flag is set, that is, while the last pointer-move hit the
    rectangle, begins a drag whatever the position of the press, records the
    event's geo-coordinate as the current point and the point stored as
    current until then as the previous one.  On a ready control that tracks
    bounds [b], the pointer-move that follows makes the pressed point the
    previous point, so that the first offset applied to the bounds is the
    pressed point minus the moved point. *)
Theorem mouseDown_begins_drag (e : MapMouseEvent) (this : Minimap) :
  isCursorOverFeature this = true →
  isDragging (mouseDown e this) = true ∧
  currentPoint (mouseDown e this) = (lng (lngLat e), lat (lngLat e)) ∧
  previousPoint (mouseDown e this) = currentPoint this ∧
  ∀ (e' : MapMouseEvent) (b : LngLatBounds),
    ready this → tracks b this →
    ∃ this',
      mouseMove e' (mouseDown e this) = Some this' ∧
      previousPoint this' = (lng (lngLat e), lat (lngLat e)) ∧
      currentPoint this' = (lng (lngLat e'), lat (lngLat e')) ∧
      tracks (restrict (translate (lng (lngLat e) - lng (lngLat e'),
                                   lat (lngLat e) - lat (lngLat e')) b)) this'.
Proof.
  intros Hover. unfold mouseDown. rewrite Hover.
  split; [reflexivity|]. split; [reflexivity|]. split; [reflexivity|].
  intros e' b (Hm & Hmm & Hcv & _ & _) Hb.
  eexists. split.
  { apply (mouseMove_ready e' _ b); assumption. }
  setters. repeat split.
Qed.

Lemma mouseDown_begins_drag_witness :
  isCursorOverFeature (hovering view0 5 7) = true ∧
  ready (hovering view0 5 7) ∧
  tracks (getBounds view0) (hovering view0 5 7) ∧
  previousPoint (mouseDown (pointer 5 7 1) (hovering view0 5 7))
  = currentPoint (hovering view0 5 7) ∧
  ∃ this',
    mouseMove (pointer 6 9 1) (mouseDown (pointer 5 7 1) (hovering view0 5 7))
    = Some this' ∧
    previousPoint this' = (5, 7) ∧ currentPoint this' = (6, 9) ∧
    tracks (restrict (translate (5 - 6, 7 - 9) (getBounds view0))) this'.
Proof.
  assert (Hover : isCursorOverFeature (hovering view0 5 7) = true)
    by (vm_compute; reflexivity).
  assert (Hready : ready (hovering view0 5 7)).
  { vm_compute. repeat split; try (eexists; reflexivity).
    do 5 eexists. split; [reflexivity|]. repeat constructor. }
  assert (Hb : tracks (getBounds view0) (hovering view0 5 7))
    by (vm_compute; reflexivity).
  split; [exact Hover|]. split; [exact Hready|]. split; [exact Hb|].
  destruct (mouseDown_begins_drag (pointer 5 7 1) (hovering view0 5 7) Hover)
    as (_ & _ & Hprev & Hnext).
  split; [exact Hprev|].
  exact (Hnext (pointer 6 9 1) (getBounds view0) Hready Hb).
Defined.

(** C6, as stated, fails twice over.  After a pointer-down at (5, 7) over
    the rectangle, with the cursor-over flag set, the previous point is the
    point stored before, (0, 0), not the event's geo-coordinate; and a
    pointer-down over the rectangle on the loaded control, where no
    pointer-move has set the flag yet, begins no drag. *)
Lemma mouseDown_previous_point_counterexample :
  ¬ ((0 < features_length (pointer 5 7 1))%nat →
     isCursorOverFeature (hovering view0 5 7) = true →
     isDragging (mouseDown (pointer 5 7 1) (hovering view0 5 7)) = true ∧
     currentPoint (mouseDown (pointer 5 7 1) (hovering view0 5 7)) = (5, 7) ∧
     previousPoint (mouseDown (pointer 5 7 1) (hovering view0 5 7)) = (5, 7)) ∧
  ¬ ((0 < features_length (pointer 0 0 1))%nat →
     isDragging (mouseDown (pointer 0 0 1) (loaded view0)) = true).
Proof.
  split.
  - intros H.
    destruct H as (_ & _ & H); [vm_compute; lia | vm_compute; reflexivity |].
    vm_compute in H. discriminate H.
  - intros H.
    assert (E : isDragging (mouseDown (pointer 0 0 1) (loaded view0)) = false)
      by (vm_compute; reflexivity).
    rewrite H in E; [discriminate E | vm_compute; lia].
Qed.

(** *** Where the code departs from the specification *)

(** [moveTrackingRect] of [src/minimap.ts] never writes the polygon. *)
Lemma moveTrackingRect_keeps_polygon
    (offset : Q * Q) (this this' : Minimap) (r : option LngLatBounds) :
  moveTrackingRect offset this = Some (r, this') →
  trackingRectCoordinates this' = trackingRectCoordinates this.
Proof.
  unfold moveTrackingRect. literal this.
  destruct tr as [[[[[b|]]|]]|]; cbn [_data properties_bounds mbind option_bind];
    setters;
    intros H; try discriminate H; injection H as _ <-; reflexivity.
Qed.

(** C1. The drag step of [mouseMove] computes the offset from the last
    two pointer positions, translates and restricts the stored bounds, but
    pushes the polygon as it was: with the rectangle NE(10,10)/SW(-10,-10)
    pressed at (0, 0) and the pointer moved to (5, 0), the source then holds
    NE(15,10)/SW(-5,-10) while the polygon pushed with it is still the ring
    of NE(10,10)/SW(-10,-10). *)
Theorem mouseMove_pushes_stale_polygon :
  let before := pressed view0 0 0 in
  let moved :=
    {| _ne := {| lng := 15; lat := 10 |}; _sw := {| lng := -5; lat := -10 |} |} in
  tracks (getBounds view0) before ∧
  ∃ after,
    mouseMove (pointer 5 0 1) before = Some after ∧
    previousPoint after = (0, 0) ∧ currentPoint after = (5, 0) ∧
    tracks moved after ∧
    moved = restrict (translate (0 - 5, 0 - 0) (getBounds view0)) ∧
    trackingRectCoordinates after = tracking_polygon (getBounds view0) ∧
    trackingRectCoordinates after ≠ tracking_polygon moved ∧
    calls after
    = calls before ++
      [SetData (Some moved) (tracking_polygon (getBounds view0));
       FitBounds (Some moved) 80].
Proof.
  intros before moved.
  assert (Hb : tracks (getBounds view0) before) by (vm_compute; reflexivity).
  split; [exact Hb|].
  eexists. split.
  { apply (mouseMove_ready (pointer 5 0 1) before (getBounds view0));
      [vm_compute; eexists; reflexivity .. | exact Hb]. }
  split; [vm_compute; reflexivity|]. split; [vm_compute; reflexivity|].
  split; [vm_compute; reflexivity|]. split; [vm_compute; reflexivity|].
  split; [vm_compute; reflexivity|].
  split; [vm_compute; intros H; discriminate H | vm_compute; reflexivity].
Qed.

(** The second revision regenerates the polygon, but from the bounds before
    their restriction: dragged east past the antimeridian, the source holds
    NE.lng = 180 and the polygon pushed with it has NE.lng = 185. *)
Lemma Rev2_polygon_precedes_restriction :
  let before := pressed view_east 172 0 in
  let stored :=
    {| _ne := {| lng := 180; lat := 10 |}; _sw := {| lng := 180; lat := -10 |} |} in
  let translated :=
    {| _ne := {| lng := 185; lat := 10 |}; _sw := {| lng := 180; lat := -10 |} |} in
  trackingRect <$> Rev2.mouseMove (pointer 182 0 1) before
  = Some (Some {| _data := Some {| properties_bounds := Some stored |} |}) ∧
  trackingRectCoordinates <$> Rev2.mouseMove (pointer 182 0 1) before
  = Some (tracking_polygon translated) ∧
  tracking_polygon translated ≠ tracking_polygon stored.
Proof.
  intros before stored translated.
  split; [vm_compute; reflexivity|]. split; [vm_compute; reflexivity|].
  vm_compute. intros H. discriminate H.
Qed.

(** C3. The restriction bounds the north-east corner from above and the
    south-west corner from below only: from the valid bounds
    NE(-170,10)/SW(-175,-10), pressed at longitude -172 and dragged to
    longitude -190, the stored bounds become NE(-188,10)/SW(-180,-10), whose
    north-east longitude is below -180. *)
Theorem moveTrackingRect_leaves_valid_range :
  let before := pressed view_west (-172) 0 in
  let moved :=
    {| _ne := {| lng := -188; lat := 10 |}; _sw := {| lng := -180; lat := -10 |} |} in
  valid_bounds (getBounds view_west) ∧
  tracks (getBounds view_west) before ∧
  moveTrackingRect (18, 0) before
  = Some (Some moved,
          call (SetData (Some moved) (trackingRectCoordinates before))
            (set_trackingRect
               (Some {| _data := Some {| properties_bounds := Some moved |} |})
               before)) ∧
  (∃ after, mouseMove (pointer (-190) 0 1) before = Some after ∧ tracks moved after) ∧
  ¬ valid_bounds moved.
Proof.
  intros before moved.
  split; [repeat split; apply Qle_bool_iff; vm_compute; reflexivity|].
  split; [vm_compute; reflexivity|].
  split; [vm_compute; reflexivity|].
  split.
  { eexists. split.
    - apply (mouseMove_ready (pointer (-190) 0 1) before (getBounds view_west));
        [vm_compute; eexists; reflexivity .. | vm_compute; reflexivity].
    - vm_compute. reflexivity. }
  intros (_ & [H _] & _). apply Qle_bool_iff in H. vm_compute in H. discriminate H.
Qed.

(** Near the south pole the same restriction inverts the latitudes. *)
Example restrict_inverts_latitudes :
  restrict (translate (0, 20)
              {| _ne := {| lng := 10; lat := -80 |};
                 _sw := {| lng := -10; lat := -85 |} |})
  = {| _ne := {| lng := 10; lat := -100 |}; _sw := {| lng := -10; lat := -90 |} |}.
Proof. vm_compute. reflexivity. Qed.

(** [mouseUp] and the listener of the primary map's [move] event. *)
Lemma mouseUp_detaches (this : Minimap) (b : LngLatBounds) :
  is_Some (map this) → is_Some (minimap this) → tracks b this →
  isDragging this = true →
  ∃ this',
    mouseUp this = Some this' ∧ isDragging this' = false ∧
    calls this'
    = calls this ++ [Off Primary "move" onMainMapMove; FitBounds (Some b) 500] ∧
    registered Primary "move" onMainMapMove (calls this') = false.
Proof.
  intros Hm Hmm Hb Hdrag. rewrite (mouseUp_ready this b) by assumption.
  rewrite Hdrag. eexists. split; [reflexivity|]. setters.
  split; [reflexivity|]. split; [reflexivity|].
  unfold registered. rewrite foldl_app. cbn [foldl].
  rewrite bool_decide_eq_true_2 by (repeat split). reflexivity.
Qed.

(** No handler binds the listener again: once detached it stays so. *)
Lemma move_listener_stays_detached (evs : list Event) (this this' : Minimap) :
  ready this → run evs this = Some this' →
  registered Primary "move" onMainMapMove (calls this) = false →
  registered Primary "move" onMainMapMove (calls this') = false.
Proof.
  revert this. induction evs as [|ev evs IH]; intros this Hready Hrun Hreg.
  - injection Hrun as <-. exact Hreg.
  - cbn [run] in Hrun.
    destruct (handle_ready ev this Hready) as (this1 & Hev & Hready1 & _).
    rewrite Hev in Hrun. cbn [mbind option_bind] in Hrun.
    apply (IH this1 Hready1 Hrun). clear IH Hrun Hready1.
    destruct Hready as (Hm & Hmm & Hcv & [b Hb] & Hshape).
    destruct ev as [e|e| |view|view]; cbn [handle] in Hev.
    + rewrite (mouseMove_ready e this b) in Hev by assumption.
      injection Hev as <-. literal this.
      destruct drag; setters; [|exact Hreg].
      unfold registered in *. rewrite foldl_app, Hreg.
      destruct (truthy _); reflexivity.
    + injection Hev as <-. unfold mouseDown. literal this.
      destruct over; setters; exact Hreg.
    + rewrite (mouseUp_ready this b) in Hev by assumption.
      injection Hev as <-. literal this.
      destruct drag; setters; [|exact Hreg].
      unfold registered in *. rewrite foldl_app, Hreg. reflexivity.
    + destruct (isDragging this) eqn:Hdrag.
      * unfold update in Hev. literal this. subst.
        cbv beta iota zeta delta [set_map isDragging] in Hev.
        injection Hev as <-. exact Hreg.
      * erewrite (update_idle (set_map (Some view) this) view) in Hev;
          [| exact Hdrag | reflexivity | exact Hmm | exact Hb | reflexivity
           | exact Hshape ].
        injection Hev as <-. literal this. setters.
        unfold registered in *. rewrite foldl_app, Hreg. reflexivity.
    + injection Hev as <-. unfold mapMoved. destruct Hmm as [mm Hmm].
      literal this. subst. setters.
      unfold registered in *. rewrite foldl_app, Hreg. reflexivity.
Qed.

(** C5. A pointer-up during a drag ends the drag, detaches the [move]
    listener of the primary map and asks it to fit the stored bounds in
    500 ms (80 ms while dragging), and that is all: the listener bound by
    [load] is not bound again. *)
Theorem mouseUp_leaves_move_listener_detached :
  let before := pressed view0 0 0 in
  isDragging before = true ∧
  registered Primary "move" onMainMapMove (calls before) = true ∧
  ∃ after,
    mouseUp before = Some after ∧
    isDragging after = false ∧
    calls after
    = calls before ++
      [Off Primary "move" onMainMapMove; FitBounds (Some (getBounds view0)) 500] ∧
    registered Primary "move" onMainMapMove (calls after) = false ∧
    ∀ view,
      (registered Primary "move" onMainMapMove
         <$> (calls <$> handle (PrimaryMoveEnd view) after)) = Some false.
Proof.
  intros before.
  split; [vm_compute; reflexivity|]. split; [vm_compute; reflexivity|].
  eexists. split.
  { apply (mouseUp_ready before (getBounds view0));
      [vm_compute; eexists; reflexivity .. | vm_compute; reflexivity]. }
  split; [vm_compute; reflexivity|]. split; [vm_compute; reflexivity|].
  split; [vm_compute; reflexivity|].
  intros [z b c]. vm_compute. reflexivity.
Qed.

(** ** Further properties of the code *)

(** *** The arithmetic of a drag step *)

Lemma Qmin_below (x y : Q) : x <= y → Qmin x y = x.
Proof.
  intros H. unfold Qmin, GenericMinMax.gmin.
  destruct (x ?= y) eqn:Hc; try reflexivity.
  apply Qgt_alt in Hc. exfalso. apply (Qlt_not_le _ _ Hc H).
Qed.

Lemma Qmax_above (x y : Q) : y <= x → Qmax x y = x.
Proof.
  intros H. unfold Qmax, GenericMinMax.gmax.
  destruct (x ?= y) eqn:Hc; try reflexivity.
  apply Qlt_alt in Hc. exfalso. apply (Qlt_not_le _ _ Hc H).
Qed.

Lemma restrict_within_limits (b : LngLatBounds) :
  within_limits b → restrict b = b.
Proof.
  intros (H1 & H2 & H3 & H4). destruct b as [[x y] [u v]]. unfold restrict.
  cbn [_ne _sw lng lat] in *.
  rewrite !Qmin_below, !Qmax_above by assumption. reflexivity.
Qed.

(** X1. A drag step whose translated bounds stay within the limits moves
    the rectangle rigidly: the bounds stored and returned are the old ones
    with the offset subtracted from both corners, nothing else. *)
Theorem drag_within_limits_is_translation
    (offset : Q * Q) (b : LngLatBounds) (this : Minimap) :
  tracks b this → within_limits (translate offset b) →
  ∃ this',
    moveTrackingRect offset this = Some (Some (translate offset b), this') ∧
    tracks (translate offset b) this' ∧
    lng (_ne (translate offset b)) = lng (_ne b) - offset.1 ∧
    lat (_ne (translate offset b)) = lat (_ne b) - offset.2 ∧
    lng (_sw (translate offset b)) = lng (_sw b) - offset.1 ∧
    lat (_sw (translate offset b)) = lat (_sw b) - offset.2.
Proof.
  intros Hb Hlim. rewrite (moveTrackingRect_tracks offset b this Hb).
  cbv zeta. rewrite (restrict_within_limits _ Hlim).
  eexists. split; [reflexivity|]. repeat split.
Qed.

Lemma drag_within_limits_is_translation_witness :
  tracks (getBounds view0) (pressed view0 0 0) ∧
  within_limits (translate (5, 0) (getBounds view0)) ∧
  ∃ this',
    moveTrackingRect (5, 0) (pressed view0 0 0)
    = Some (Some (translate (5, 0) (getBounds view0)), this') ∧
    tracks (translate (5, 0) (getBounds view0)) this'.
Proof.
  assert (Hb : tracks (getBounds view0) (pressed view0 0 0))
    by (vm_compute; reflexivity).
  assert (Hlim : within_limits (translate (5, 0) (getBounds view0))).
  { repeat split; apply Qle_bool_iff; vm_compute; reflexivity. }
  split; [exact Hb|]. split; [exact Hlim|].
  destruct (drag_within_limits_is_translation (5, 0) (getBounds view0)
              (pressed view0 0 0) Hb Hlim) as (this' & H1 & H2 & _).
  exists this'. split; assumption.
Defined.

Lemma Qmin_limit (x y : Q) : y < x → Qmin x y = y.
Proof.
  intros H. unfold Qmin, GenericMinMax.gmin.
  destruct (x ?= y) eqn:Hc; try reflexivity; exfalso.
  - apply Qeq_alt in Hc. rewrite Hc in H. exact (Qlt_irrefl _ H).
  - apply Qlt_alt in Hc. exact (Qlt_irrefl _ (Qlt_trans _ _ _ Hc H)).
Qed.

Lemma Qmax_limit (x y : Q) : x < y → Qmax x y = y.
Proof.
  intros H. unfold Qmax, GenericMinMax.gmax.
  destruct (x ?= y) eqn:Hc; try reflexivity; exfalso.
  - apply Qeq_alt in Hc. rewrite Hc in H. exact (Qlt_irrefl _ H).
  - apply Qgt_alt in Hc. exact (Qlt_irrefl _ (Qlt_trans _ _ _ Hc H)).
Qed.

(** X2. A drag step only cuts the rectangle, coordinate by coordinate.
    Each coordinate stored and returned is the translated one as long as
    that is on the inner side of its limit, and the limit itself once the
    translation has carried it past: 180 and 90 for the north-east corner,
    -180 and -90 for the south-west corner.  A coordinate that is not past
    its limit is left where the translation put it, also when the opposite
    one is cut. *)
Theorem drag_cuts_at_limits
    (offset : Q * Q) (b : LngLatBounds) (this : Minimap) :
  tracks b this →
  ∃ b' this',
    moveTrackingRect offset this = Some (Some b', this') ∧
    tracks b' this' ∧
    (lng (_ne (translate offset b)) <= 180 →
     lng (_ne b') = lng (_ne (translate offset b))) ∧
    (180 < lng (_ne (translate offset b)) → lng (_ne b') = 180) ∧
    (lat (_ne (translate offset b)) <= 90 →
     lat (_ne b') = lat (_ne (translate offset b))) ∧
    (90 < lat (_ne (translate offset b)) → lat (_ne b') = 90) ∧
    (-180 <= lng (_sw (translate offset b)) →
     lng (_sw b') = lng (_sw (translate offset b))) ∧
    (lng (_sw (translate offset b)) < -180 → lng (_sw b') = -180) ∧
    (-90 <= lat (_sw (translate offset b)) →
     lat (_sw b') = lat (_sw (translate offset b))) ∧
    (lat (_sw (translate offset b)) < -90 → lat (_sw b') = -90).
Proof.
  intros Hb. rewrite (moveTrackingRect_tracks offset b this Hb). cbv zeta.
  do 2 eexists. split; [reflexivity|]. split; [reflexivity|].
  destruct (translate offset b) as [[x y] [u v]].
  unfold restrict. cbn [_ne _sw lng lat].
  repeat split; intros H;
    first [ apply Qmin_below; exact H | apply Qmin_limit; exact H
          | apply Qmax_above; exact H | apply Qmax_limit; exact H ].
Qed.

Lemma drag_cuts_at_limits_witness :
  tracks (getBounds view_east) (pressed view_east 172 0) ∧
  ∃ b' this',
    moveTrackingRect (-10, 0) (pressed view_east 172 0) = Some (Some b', this') ∧
    tracks b' this' ∧
    lng (_ne b') = 180 ∧
    lng (_sw b') = lng (_sw (translate (-10, 0) (getBounds view_east))).
Proof.
  assert (Hb : tracks (getBounds view_east) (pressed view_east 172 0))
    by (vm_compute; reflexivity).
  split; [exact Hb|].
  destruct (drag_cuts_at_limits (-10, 0) (getBounds view_east)
              (pressed view_east 172 0) Hb)
    as (b' & this' & H1 & H2 & _ & H3 & _ & _ & H4 & _).
  exists b', this'. split; [exact H1|]. split; [exact H2|].
  split; [apply H3; vm_compute; reflexivity|].
  apply H4. apply Qle_bool_iff. vm_compute. reflexivity.
Defined.

(** X3. In the second revision a drag step whose translated bounds stay
    within the limits pushes the polygon of the very bounds it stores. *)
Theorem Rev2_drag_within_limits_consistent
    (offset : Q * Q) (b : LngLatBounds) (this : Minimap) :
  tracks b this → tracking_shape (trackingRectCoordinates this) →
  within_limits (translate offset b) →
  ∃ b' this',
    Rev2.moveTrackingRect offset this = Some (Some b', this') ∧
    tracks b' this' ∧ b' = translate offset b ∧
    trackingRectCoordinates this' = tracking_polygon b' ∧
    calls this' = calls this ++ [SetData (Some b') (tracking_polygon b')].
Proof.
  intros Hb Hshape Hlim. unfold tracks in Hb.
  unfold Rev2.moveTrackingRect. rewrite Hb.
  cbn [_data properties_bounds mbind option_bind].
  rewrite (convertBoundsToPoints_shape _ _ Hshape).
  cbn [mbind option_bind]. rewrite (restrict_within_limits _ Hlim).
  literal this. setters. do 2 eexists. repeat split.
Qed.

Lemma Rev2_drag_within_limits_consistent_witness :
  tracks (getBounds view0) (pressed view0 0 0) ∧
  tracking_shape (trackingRectCoordinates (pressed view0 0 0)) ∧
  within_limits (translate (5, 0) (getBounds view0)) ∧
  ∃ b' this',
    Rev2.moveTrackingRect (5, 0) (pressed view0 0 0) = Some (Some b', this') ∧
    trackingRectCoordinates this' = tracking_polygon b'.
Proof.
  assert (Hb : tracks (getBounds view0) (pressed view0 0 0))
    by (vm_compute; reflexivity).
  assert (Hs : tracking_shape (trackingRectCoordinates (pressed view0 0 0))).
  { vm_compute. do 5 eexists. split; [reflexivity|]. repeat constructor. }
  assert (Hlim : within_limits (translate (5, 0) (getBounds view0))).
  { repeat split; apply Qle_bool_iff; vm_compute; reflexivity. }
  split; [exact Hb|]. split; [exact Hs|]. split; [exact Hlim|].
  destruct (Rev2_drag_within_limits_consistent (5, 0) (getBounds view0)
              (pressed view0 0 0) Hb Hs Hlim) as (b' & this' & H1 & _ & _ & H2 & _).
  exists b', this'. split; assumption.
Defined.

(** *** [load] *)

Lemma disable_loop_filter (l : list string) (this : Minimap) :
  foldl (λ this interaction,
           if negb (truthy (options this !! interaction))
           then call (Disable interaction) this else this) this l
  = {| options := options this; map := map this; minimap := minimap this;
       minimapCanvas := minimapCanvas this; isCollapsed := isCollapsed this;
       isDragging := isDragging this;
       isCursorOverFeature := isCursorOverFeature this;
       currentPoint := currentPoint this; previousPoint := previousPoint this;
       trackingRect := trackingRect this;
       trackingRectCoordinates := trackingRectCoordinates this;
       calls :=
         calls this ++
         (Disable <$> filter (λ i, truthy (options this !! i) = false) l) |}.
Proof.
  induction l as [|i l IH] using rev_ind.
  - literal this. cbn. rewrite app_nil_r. reflexivity.
  - rewrite foldl_app. cbn [foldl]. rewrite IH. literal this.
    rewrite filter_app, fmap_app, app_assoc. cbn [filter list_filter].
    destruct (truthy (opts !! i)) eqn:Hi; cbn [negb].
    + rewrite decide_False by discriminate. cbn. rewrite app_nil_r. reflexivity.
    + rewrite decide_True by reflexivity. setters. reflexivity.
Qed.

Lemma filter_notin (id : string) (l : list string) :
  id ∉ l → filter (λ x, x ≠ id) l = l.
Proof.
  induction l as [|x l IH]; intros Hid; [reflexivity|].
  apply not_elem_of_cons in Hid as [Hne Hid].
  rewrite filter_cons, decide_True by congruence. rewrite IH by exact Hid.
  reflexivity.
Qed.

(** [load] on a control that has been added to a map, whatever its options
    and the layers of the inset map. *)
Lemma load_added (this : Minimap) (m : MapT) (mm : InsetMap) :
  map this = Some m → minimap this = Some mm →
  tracking_shape (trackingRectCoordinates this) →
  ∃ this' mm' rest,
    load this = Some this' ∧
    calls this'
    = calls this ++
      (Disable <$> filter (λ i, truthy (options this !! i) = false) interactions) ++
      rest ∧
    (∀ i, Disable i ∉ rest) ∧
    minimap this' = Some mm' ∧
    layers mm'
    = filter (λ l, l ≠ "trackingRectFill")
        (filter (λ l, l ≠ "trackingRectOutline") (layers mm)) ++
      ["trackingRectOutline"; "trackingRectFill"] ∧
    sources mm' = filter (λ l, l ≠ "trackingRect") (sources mm) ++ ["trackingRect"].
Proof.
  intros Hmap Hmm Hshape. unfold load. rewrite Hmm. cbn [mbind option_bind].
  unfold disable_interactions. rewrite disable_loop_filter.
  literal this. subst.
  destruct mm as [ls ss cv]. cbn [layers sources removeLayer removeSource].
  case_bool_decide; cbn [layers sources removeLayer removeSource];
    (case_bool_decide; cbn [layers sources removeLayer removeSource];
     (case_bool_decide)).
  all: setters.
  all: destruct drag;
    [ unfold update; setters
    | erewrite update_idle;
        [| reflexivity | reflexivity | eexists; reflexivity | reflexivity
         | reflexivity | exact Hshape ]; setters ].
  all: do 3 eexists; split; [reflexivity|].
  all: setters; rewrite <- !app_assoc.
  all: split; [reflexivity|].
  all: split;
    [ intros i Hi;
      repeat (apply elem_of_cons in Hi as [Hi|Hi]; [discriminate Hi|]);
      apply elem_of_nil in Hi; exact Hi |].
  all: split; [reflexivity|].
  all: unfold addLayer, addSource; cbn [layers sources].
  all: try rewrite (filter_notin "trackingRectOutline" ls) by assumption.
  all: try rewrite (filter_notin "trackingRectFill" _) by assumption.
  all: try rewrite (filter_notin "trackingRect" ss) by assumption.
  all: rewrite <- ?app_assoc; split; reflexivity.
Qed.

(** X4. [load] disables the inset handlers whose option is falsy, in the
    order of the list, and no other: with [scrollZoom: true] in the config
    the six others are disabled and scroll zoom is left as it is. *)
Theorem load_disables_falsy_interactions
    (this : Minimap) (m : MapT) (mm : InsetMap) :
  map this = Some m → minimap this = Some mm →
  tracking_shape (trackingRectCoordinates this) →
  ∃ this' rest,
    load this = Some this' ∧
    calls this'
    = calls this ++
      (Disable <$> filter (λ i, truthy (options this !! i) = false)
                     ["dragPan"; "scrollZoom"; "boxZoom"; "dragRotate";
                      "keyboard"; "doubleClickZoom"; "touchZoomRotate"]) ++
      rest ∧
    (∀ i, Disable i ∉ rest).
Proof.
  intros Hmap Hmm Hshape.
  destruct (load_added this m mm Hmap Hmm Hshape)
    as (this' & mm' & rest & Hload & Hcalls & Hrest & _).
  exists this', rest. repeat split; assumption.
Qed.

Lemma load_disables_falsy_interactions_witness :
  ∃ this' rest,
    load added1 = Some this' ∧
    calls this'
    = calls added1 ++
      [Disable "dragPan"; Disable "boxZoom"; Disable "dragRotate";
       Disable "keyboard"; Disable "doubleClickZoom"; Disable "touchZoomRotate"] ++
      rest ∧
    (∀ i, Disable i ∉ rest).
Proof.
  assert (Hmap : map added1 = Some view0) by (vm_compute; reflexivity).
  assert (Hmm : minimap added1 = Some inset1) by (vm_compute; reflexivity).
  assert (Hshape : tracking_shape (trackingRectCoordinates added1)).
  { vm_compute. do 5 eexists. split; [reflexivity|]. repeat constructor; lia. }
  destruct (load_disables_falsy_interactions added1 view0 inset1 Hmap Hmm Hshape)
    as (this' & rest & Hload & Hcalls & Hrest).
  exists this', rest. split; [exact Hload|]. split; [|exact Hrest].
  rewrite Hcalls. vm_compute. reflexivity.
Defined.

Lemma load_without_maps (this : Minimap) :
  map this = None ∨ minimap this = None → load this = None.
Proof.
  intros H. unfold load. destruct (minimap this) as [mm|] eqn:Hmm; [|reflexivity].
  destruct H as [Hmap|H]; [|discriminate H].
  cbn [mbind option_bind].
  unfold disable_interactions. rewrite disable_loop_filter.
  literal this. subst.
  destruct mm as [ls ss cv]. cbn [layers sources removeLayer removeSource].
  case_bool_decide; cbn [layers sources removeLayer removeSource];
    (case_bool_decide; cbn [layers sources removeLayer removeSource];
     (case_bool_decide)).
  all: setters.
  all: unfold update, zoomAdjust, setTrackingRectBounds; setters.
  all: destruct drag; setters; reflexivity.
Qed.

(** X5. On a control whose coordinate array has the constructor's shape,
    [load] returns exactly when the control has been added to a map; on one
    that has not (no primary or no inset map) it raises. *)
Theorem load_returns_iff_added (this : Minimap) :
  tracking_shape (trackingRectCoordinates this) →
  (is_Some (load this) ↔ is_Some (map this) ∧ is_Some (minimap this)) ∧
  (map this = None ∨ minimap this = None → load this = None).
Proof.
  intros Hshape. split; [|apply load_without_maps].
  split.
  - intros Hload.
    destruct (map this) as [m|] eqn:Hmap, (minimap this) as [mm|] eqn:Hmm;
      try (split; eexists; reflexivity);
      rewrite load_without_maps in Hload by (rewrite ?Hmap, ?Hmm; auto);
      destruct Hload as [? Hload]; discriminate Hload.
  - intros [[m Hmap] [mm Hmm]].
    destruct (load_added this m mm Hmap Hmm Hshape) as (this' & _ & _ & -> & _).
    eexists. reflexivity.
Qed.

Lemma load_returns_iff_added_witness :
  tracking_shape (trackingRectCoordinates (constructor None)) ∧
  load (constructor None) = None ∧ is_Some (load added1).
Proof.
  assert (Hs0 : tracking_shape (trackingRectCoordinates (constructor None))).
  { do 5 eexists. split; [reflexivity|]. repeat constructor. }
  assert (Hs1 : tracking_shape (trackingRectCoordinates added1)).
  { vm_compute. do 5 eexists. split; [reflexivity|]. repeat constructor; lia. }
  split; [exact Hs0|]. split.
  - apply (proj2 (load_returns_iff_added (constructor None) Hs0)).
    left. reflexivity.
  - apply (proj1 (load_returns_iff_added added1 Hs1)).
    split; vm_compute; eexists; reflexivity.
Defined.

(** X6. [load] leaves every other layer and source of the inset map in
    place and in order, and each of the two tracking layers and the tracking
    source exactly once, at the end: what an earlier [load] or the style had
    put under these ids is removed first. *)
Theorem load_tracking_layers_once (this : Minimap) (m : MapT) (mm : InsetMap) :
  map this = Some m → minimap this = Some mm →
  tracking_shape (trackingRectCoordinates this) →
  ∃ this' mm',
    load this = Some this' ∧ minimap this' = Some mm' ∧
    let others :=
      filter (λ l, l ≠ "trackingRectFill")
        (filter (λ l, l ≠ "trackingRectOutline") (layers mm)) in
    let other_sources := filter (λ l, l ≠ "trackingRect") (sources mm) in
    layers mm' = others ++ ["trackingRectOutline"; "trackingRectFill"] ∧
    ("trackingRectOutline" ∉ others) ∧ ("trackingRectFill" ∉ others) ∧
    sources mm' = other_sources ++ ["trackingRect"] ∧
    ("trackingRect" ∉ other_sources).
Proof.
  intros Hmap Hmm Hshape.
  destruct (load_added this m mm Hmap Hmm Hshape)
    as (this' & mm' & rest & Hload & _ & _ & Hmm' & Hl & Hs).
  exists this', mm'. split; [exact Hload|]. split; [exact Hmm'|].
  cbv zeta. split; [exact Hl|]. split; [|split; [|split; [exact Hs|]]].
  - intros H. apply list_elem_of_filter in H as [_ H].
    apply list_elem_of_filter in H as [H _]. apply H. reflexivity.
  - intros H. apply list_elem_of_filter in H as [H _]. apply H. reflexivity.
  - intros H. apply list_elem_of_filter in H as [H _]. apply H. reflexivity.
Qed.

Lemma load_tracking_layers_once_witness :
  ∃ this' mm',
    load added1 = Some this' ∧ minimap this' = Some mm' ∧
    layers mm' = ["water"; "roads"; "trackingRectOutline"; "trackingRectFill"] ∧
    sources mm' = ["tiles"; "trackingRect"].
Proof.
  assert (Hmap : map added1 = Some view0) by (vm_compute; reflexivity).
  assert (Hmm : minimap added1 = Some inset1) by (vm_compute; reflexivity).
  assert (Hshape : tracking_shape (trackingRectCoordinates added1)).
  { vm_compute. do 5 eexists. split; [reflexivity|]. repeat constructor; lia. }
  destruct (load_tracking_layers_once added1 view0 inset1 Hmap Hmm Hshape)
    as (this' & mm' & Hload & Hmm' & Hl & _ & _ & Hs & _).
  exists this', mm'. split; [exact Hload|]. split; [exact Hmm'|].
  split; [rewrite Hl | rewrite Hs]; vm_compute; reflexivity.
Defined.

(** *** A drag, move by move *)

Lemma run_app (evs1 evs2 : list Event) (this : Minimap) :
  run (evs1 ++ evs2) this = run evs1 this ≫= run evs2.
Proof.
  revert this. induction evs1 as [|ev evs1 IH]; intros this; [reflexivity|].
  cbn [run app]. destruct (handle ev this) as [this1|]; [|reflexivity].
  cbn [mbind option_bind]. apply IH.
Qed.

(** One pointer-move of a drag on a ready control. *)
Lemma mouseMove_drag_step (e : MapMouseEvent) (this : Minimap) (b : LngLatBounds) :
  ready this → tracks b this → isDragging this = true →
  ∃ this' b',
    mouseMove e this = Some this' ∧ ready this' ∧ isDragging this' = true ∧
    options this' = options this ∧ tracks b' this' ∧
    b' = restrict (translate ((currentPoint this).1 - lng (lngLat e),
                              (currentPoint this).2 - lat (lngLat e)) b) ∧
    calls this'
    = calls this ++
      SetData (Some b') (trackingRectCoordinates this) ::
      (if truthy (options this !! "disableMinimapMoveOnDrag") then []
       else [FitBounds (Some b') 80]).
Proof.
  intros (Hm & Hmm & Hcv & _ & Hshape) Hb Hdrag.
  rewrite (mouseMove_ready e this b) by assumption. rewrite Hdrag.
  unfold ready, tracks. literal this.
  do 2 eexists. split; [reflexivity|]. setters.
  split; [|repeat split].
  repeat split; try assumption; try (eexists; reflexivity).
  destruct (over && bool_decide (0 < features_length e)%nat);
    [assumption | eexists; reflexivity].
Qed.

(** X7. With [disableMinimapMoveOnDrag] set, no pointer-move of a drag
    asks the primary map to fit anything, however many there are; the
    pointer-up that ends the drag asks once, for the bounds stored by the
    last move, in 500 ms. *)
Theorem drag_without_live_update (es : list MapMouseEvent) (this : Minimap) :
  ready this → isDragging this = true →
  truthy (options this !! "disableMinimapMoveOnDrag") = true →
  ∃ this' cs b' this'',
    run (PointerMove <$> es) this = Some this' ∧
    calls this' = calls this ++ cs ∧
    (∀ b d, FitBounds b d ∉ cs) ∧
    tracks b' this' ∧
    mouseUp this' = Some this'' ∧
    calls this''
    = calls this' ++ [Off Primary "move" onMainMapMove; FitBounds (Some b') 500].
Proof.
  revert this. induction es as [|e es IH]; intros this Hready Hdrag Hopt.
  - destruct Hready as (Hm & Hmm & Hcv & [b Hb] & Hshape).
    exists this, [], b. eexists. split; [reflexivity|].
    split; [symmetry; apply app_nil_r|].
    split; [intros ? ? H; apply elem_of_nil in H; exact H|].
    split; [exact Hb|].
    rewrite (mouseUp_ready this b) by assumption. rewrite Hdrag.
    split; reflexivity.
  - pose proof Hready as (_ & _ & _ & [b Hb] & _).
    destruct (mouseMove_drag_step e this b Hready Hb Hdrag)
      as (this1 & b1 & Hmove & Hready1 & Hdrag1 & Hopts1 & _ & _ & Hcalls1).
    rewrite Hopt in Hcalls1.
    destruct (IH this1 Hready1 Hdrag1) as (this' & cs & b' & this'' & Hrun & Hcalls & Hcs & Hb' & Hup & Hcalls'').
    { rewrite Hopts1. exact Hopt. }
    exists this', (SetData (Some b1) (trackingRectCoordinates this) :: cs), b', this''.
    split. { cbn [fmap list_fmap run handle]. rewrite Hmove. exact Hrun. }
    split. { rewrite Hcalls, Hcalls1, <- app_assoc. reflexivity. }
    split. { intros b0 d H. apply elem_of_cons in H as [H|H]; [discriminate H|].
             exact (Hcs b0 d H). }
    repeat split; assumption.
Qed.

Lemma drag_without_live_update_witness :
  ready pressed1 ∧ isDragging pressed1 = true ∧
  truthy (options pressed1 !! "disableMinimapMoveOnDrag") = true ∧
  ∃ this' cs b' this'',
    run (PointerMove <$> [pointer 5 0 1; pointer 7 1 0; pointer 9 2 0]) pressed1
    = Some this' ∧
    calls this' = calls pressed1 ++ cs ∧
    (∀ b d, FitBounds b d ∉ cs) ∧
    tracks b' this' ∧
    mouseUp this' = Some this'' ∧
    calls this''
    = calls this' ++ [Off Primary "move" onMainMapMove; FitBounds (Some b') 500].
Proof.
  assert (Hready : ready pressed1).
  { vm_compute. repeat split; try (eexists; reflexivity).
    do 5 eexists. split; [reflexivity|]. repeat constructor. }
  assert (Hdrag : isDragging pressed1 = true) by (vm_compute; reflexivity).
  assert (Hopt : truthy (options pressed1 !! "disableMinimapMoveOnDrag") = true)
    by (vm_compute; reflexivity).
  split; [exact Hready|]. split; [exact Hdrag|]. split; [exact Hopt|].
  exact (drag_without_live_update
           [pointer 5 0 1; pointer 7 1 0; pointer 9 2 0] pressed1
           Hready Hdrag Hopt).
Defined.

(** One event keeps the affordance in step with the flag. *)
Lemma handle_shows_move (ev : Event) (this this' : Minimap) :
  ready this → shows_move this → handle ev this = Some this' → shows_move this'.
Proof.
  intros Hready Hshow Hev.
  destruct Hready as (Hm & Hmm & Hcv & [b Hb] & Hshape).
  unfold shows_move in *.
  destruct ev as [e|e| |view|view]; cbn [handle] in Hev.
  - rewrite (mouseMove_ready e this b) in Hev by assumption.
    injection Hev as <-. literal this.
    destruct drag; setters; intros ->; destruct over; cbn [andb];
      auto.
  - injection Hev as <-. unfold mouseDown. literal this.
    destruct over; setters; auto.
  - rewrite (mouseUp_ready this b) in Hev by assumption.
    injection Hev as <-. literal this. destruct drag; setters; auto.
  - destruct (isDragging this) eqn:Hdrag.
    + unfold update in Hev. literal this. subst.
      cbv beta iota zeta delta [set_map isDragging] in Hev.
      injection Hev as <-. exact Hshow.
    + erewrite (update_idle (set_map (Some view) this) view) in Hev;
        [| exact Hdrag | reflexivity | exact Hmm | exact Hb | reflexivity
         | exact Hshape ].
      injection Hev as <-. literal this. setters. exact Hshow.
  - injection Hev as <-. unfold mapMoved. destruct Hmm as [mm Hmm].
    literal this. subst. setters. exact Hshow.
Qed.

Lemma run_shows_move (evs : list Event) (this : Minimap) :
  ready this → shows_move this →
  ∃ this', run evs this = Some this' ∧ ready this' ∧ shows_move this'.
Proof.
  revert this. induction evs as [|ev evs IH]; intros this Hready Hshow.
  - exists this. split; [reflexivity|]. split; assumption.
  - destruct (handle_ready ev this Hready) as (this1 & Hev & Hready1 & _).
    destruct (IH this1 Hready1 (handle_shows_move ev this this1 Hready Hshow Hev))
      as (this' & Hrun & Hready' & Hshow').
    exists this'. cbn [run]. rewrite Hev. split; [exact Hrun|]. split; assumption.
Qed.

(** X8. On a ready control whose affordance agrees with the cursor-over
    flag, as after [load], it still agrees after any events, and right after
    a pointer-move the cursor of the inset canvas is "move" exactly when the
    hit test of that move found the rectangle. *)
Theorem cursor_follows_hit_test
    (evs : list Event) (e : MapMouseEvent) (this : Minimap) :
  ready this → shows_move this →
  ∃ this',
    run (evs ++ [PointerMove e]) this = Some this' ∧
    shows_move this' ∧
    isCursorOverFeature this' = bool_decide (0 < features_length e)%nat ∧
    minimapCanvas this'
    = Some {| cursor := if bool_decide (0 < features_length e)%nat
                        then "move" else "" |}.
Proof.
  intros Hready Hshow.
  destruct (run_shows_move evs this Hready Hshow) as (this1 & Hrun & Hready1 & Hshow1).
  pose proof Hready1 as (Hm & Hmm & Hcv & [b Hb] & Hshape).
  eexists. split.
  { rewrite run_app, Hrun. cbn [mbind option_bind run handle].
    rewrite (mouseMove_ready e this1 b) by assumption. reflexivity. }
  unfold shows_move in *. literal this1.
  destruct drag, over, (bool_decide (0 < features_length e)%nat);
    setters; cbn [andb]; repeat split; auto; discriminate.
Qed.

Lemma cursor_follows_hit_test_witness :
  ready (loaded view0) ∧ shows_move (loaded view0) ∧
  ∃ this',
    run ([PointerMove (pointer 0 0 1); PointerDown (pointer 0 0 1);
          PointerMove (pointer 5 0 1); PointerUp] ++
         [PointerMove (pointer 40 0 0)]) (loaded view0)
    = Some this' ∧
    shows_move this' ∧
    isCursorOverFeature this' = false ∧
    minimapCanvas this' = Some {| cursor := "" |}.
Proof.
  assert (Hready : ready (loaded view0)).
  { vm_compute. repeat split; try (eexists; reflexivity).
    do 5 eexists. split; [reflexivity|]. repeat constructor. }
  assert (Hshow : shows_move (loaded view0)).
  { intros H. vm_compute in H. discriminate H. }
  split; [exact Hready|]. split; [exact Hshow|].
  exact (cursor_follows_hit_test
           [PointerMove (pointer 0 0 1); PointerDown (pointer 0 0 1);
            PointerMove (pointer 5 0 1); PointerUp]
           (pointer 40 0 0) (loaded view0) Hready Hshow).
Defined.

(** *** Removal *)

Lemma registered_app (t : Target) (type : string) (h : Handler) (cs cs' : list Call) :
  registered t type h (cs ++ cs')
  = foldl (λ acc c,
             match c with
             | On t' type' h' =>
                 if bool_decide (t' = t ∧ type' = type ∧ h' = h) then true else acc
             | Off t' type' h' =>
                 if bool_decide (t' = t ∧ type' = type ∧ h' = h) then false else acc
             | _ => acc
             end) (registered t type h cs) cs'.
Proof. unfold registered. apply foldl_app. Qed.

(** X9. [onRemove] on a ready control unbinds the [move] listener of the
    primary map, the three pointer listeners of the inset map and the wheel
    listener of its canvas, and drops the inset map; it leaves the [moveend]
    listener of the primary map and the [load] listener of the inset map as
    they were.  On the removed control a pointer-move, a [moveend] and a zoom
    adjustment do nothing, and the container is detached from its parent. *)
Theorem onRemove_detaches (c : Control) :
  ready (core c) →
  let this' := core (onRemove c) in
  minimap this' = None ∧ map this' = map (core c) ∧
  registered Primary "move" onMainMapMove (calls this') = false ∧
  registered Inset "mousemove" onMouseMove (calls this') = false ∧
  registered Inset "mousedown" onMouseDown (calls this') = false ∧
  registered Inset "mouseup" onMouseUp (calls this') = false ∧
  registered InsetCanvas "wheel" preventDefault (calls this') = false ∧
  registered Primary "moveend" onMainMapMoveEnd (calls this')
  = registered Primary "moveend" onMainMapMoveEnd (calls (core c)) ∧
  registered Inset "load" onLoad (calls this')
  = registered Inset "load" onLoad (calls (core c)) ∧
  (∀ e, mouseMove e this' = Some this') ∧
  mapMoved this' = this' ∧ zoomAdjust this' = this' ∧
  (∀ cont, container (onRemove c) = Some cont → parentNode cont = false).
Proof.
  intros ([m Hm] & [mm Hmm] & [cv Hcv] & _ & _).
  destruct c as [this cont btn dc]. cbn [core] in *. literal this. subst.
  unfold onRemove.
  destruct cont as [[w h r o [|]]|];
    cbn [core container toggleButton dom_calls parentNode]; setters;
    cbn [core container]; rewrite <- !app_assoc;
    rewrite !(registered_app _ _ _ cs);
    (repeat split; try (vm_compute; reflexivity));
    intros cont' H; try discriminate H; injection H as <-; reflexivity.
Qed.

Lemma onRemove_detaches_witness :
  ready (core control1) ∧
  minimap (core (onRemove control1)) = None ∧
  registered Primary "move" onMainMapMove (calls (core control1)) = true ∧
  registered Primary "move" onMainMapMove (calls (core (onRemove control1))) = false ∧
  registered Primary "moveend" onMainMapMoveEnd (calls (core (onRemove control1)))
  = true.
Proof.
  assert (Hready : ready (core control1)).
  { vm_compute. repeat split; try (eexists; reflexivity).
    do 5 eexists. split; [reflexivity|]. repeat constructor. }
  split; [exact Hready|].
  destruct (onRemove_detaches control1 Hready)
    as (H1 & _ & H2 & _ & _ & _ & _ & H3 & _).
  split; [exact H1|]. split; [vm_compute; reflexivity|]. split; [exact H2|].
  rewrite H3. vm_compute. reflexivity.
Defined.

(** *** Collapse and expand *)

Lemma toggle_step
    (css_length : JsVal → bool) (c : Control) (cont : Container) (btn : ToggleButton) :
  container c = Some cont → toggleButton c = Some btn →
  truthy (options (core c) !! "toggleDisplay") = true →
  css_length (js_or (options (core c) !! "width") (JStr "320px")) = true →
  css_length (js_or (options (core c) !! "height") (JStr "180px")) = true →
  toggle css_length c
  = {| core := set_isCollapsed (negb (isCollapsed (core c))) (core c);
       container :=
         Some (if isCollapsed (core c) then
                 {| style_width := js_or (options (core c) !! "width") (JStr "320px");
                    style_height := js_or (options (core c) !! "height") (JStr "180px");
                    style_resize :=
                      if truthy (options (core c) !! "enableResize")
                      then JStr "both" else JStr "none";
                    style_overflow := style_overflow cont;
                    parentNode := parentNode cont |}
               else
                 {| style_width := JStr "24px"; style_height := JStr "24px";
                    style_resize := JStr "none";
                    style_overflow := style_overflow cont;
                    parentNode := parentNode cont |});
       toggleButton :=
         Some {| innerHTML :=
                   if isCollapsed (core c) then expand_icon else collapse_icon |};
       dom_calls := dom_calls c |}.
Proof.
  intros Hc Hb Ht Hw Hh. unfold toggle, collapse, expand, assign_length.
  rewrite Hc, Hb, Ht, Hw, Hh.
  destruct (isCollapsed (core c)); reflexivity.
Qed.

(** X10. With a container, a toggle button, [toggleDisplay] set and a
    width and a height in the options that the browser takes as lengths
    (the defaults 320px and 180px stand in where they are falsy), every
    [toggle] flips the collapsed flag.  After any number of toggles a
    collapsed container is 24px by 24px and not resizable, an expanded one
    has the width and the height of the options and is resizable exactly
    when [enableResize] is set, whatever size it had before; no call goes to
    the map engine. *)
Theorem toggle_alternates
    (css_length : JsVal → bool) (n : nat) (c : Control) :
  toggle_enabled c →
  css_length (js_or (options (core c) !! "width") (JStr "320px")) = true →
  css_length (js_or (options (core c) !! "height") (JStr "180px")) = true →
  let c' := Nat.iter (S n) (toggle css_length) c in
  let opts := options (core c) in
  isCollapsed (core c') = xorb (isCollapsed (core c)) (Nat.odd (S n)) ∧
  (∃ cont,
     container c' = Some cont ∧
     style_width cont
     = (if isCollapsed (core c') then JStr "24px"
        else js_or (opts !! "width") (JStr "320px")) ∧
     style_height cont
     = (if isCollapsed (core c') then JStr "24px"
        else js_or (opts !! "height") (JStr "180px")) ∧
     style_resize cont
     = (if isCollapsed (core c') then JStr "none"
        else if truthy (opts !! "enableResize") then JStr "both" else JStr "none")) ∧
  toggleButton c'
  = Some {| innerHTML :=
              if isCollapsed (core c') then collapse_icon else expand_icon |} ∧
  options (core c') = options (core c) ∧
  calls (core c') = calls (core c) ∧ dom_calls c' = dom_calls c.
Proof.
  intros (Hc & Hb & Ht) Hw Hh. cbv zeta. induction n as [|n IH].
  - destruct Hc as [cont Hc], Hb as [btn Hb].
    change (Nat.iter 1 (toggle css_length) c) with (toggle css_length c).
    rewrite (toggle_step css_length c cont btn Hc Hb Ht Hw Hh).
    destruct c as [this cont0 btn0 dc]. cbn [core container toggleButton dom_calls] in *.
    literal this. unfold set_isCollapsed. setters. cbn [core].
    destruct col; cbn; (split; [reflexivity|]);
      (split; [eexists; repeat split|]); repeat split.
  - destruct IH as (Hcol & (cont & Hcont & _) & Hbtn & Hopts & Hcalls & Hdom).
    change (Nat.iter (S (S n)) (toggle css_length) c)
      with (toggle css_length (Nat.iter (S n) (toggle css_length) c)).
    set (c1 := Nat.iter (S n) (toggle css_length) c) in *.
    rewrite (toggle_step css_length c1 cont _ Hcont Hbtn)
      by (rewrite Hopts; assumption).
    cbn [core container toggleButton dom_calls].
    assert (Hcol' : isCollapsed (set_isCollapsed (negb (isCollapsed (core c1))) (core c1))
                    = negb (isCollapsed (core c1))) by reflexivity.
    assert (Hopts' : options (set_isCollapsed (negb (isCollapsed (core c1))) (core c1))
                     = options (core c1)) by reflexivity.
    assert (Hcalls' : calls (set_isCollapsed (negb (isCollapsed (core c1))) (core c1))
                      = calls (core c1)) by reflexivity.
    rewrite Hcol', Hopts', Hcalls', Hopts, Hcalls, Hdom.
    split.
    { rewrite Hcol. rewrite (Nat.odd_succ (S n)), <- Nat.negb_odd.
      destruct (isCollapsed (core c)), (Nat.odd (S n)); reflexivity. }
    destruct (isCollapsed (core c1)); cbn [negb];
      (split; [eexists; repeat split|]); repeat split.
Qed.

Lemma toggle_alternates_witness :
  toggle_enabled control1 ∧
  px_length (js_or (options (core control1) !! "width") (JStr "320px")) = true ∧
  px_length (js_or (options (core control1) !! "height") (JStr "180px")) = true ∧
  isCollapsed (core (Nat.iter 3 (toggle px_length) control1)) = true ∧
  isCollapsed (core (Nat.iter 4 (toggle px_length) control1)) = false ∧
  ∃ cont,
    container (Nat.iter 4 (toggle px_length) control1) = Some cont ∧
    style_width cont = JStr "320px" ∧ style_height cont = JStr "180px" ∧
    style_resize cont = JStr "both".
Proof.
  assert (Hen : toggle_enabled control1).
  { split; [eexists; reflexivity|]. split; [eexists; reflexivity|].
    vm_compute. reflexivity. }
  assert (Hw : px_length (js_or (options (core control1) !! "width") (JStr "320px"))
               = true) by (vm_compute; reflexivity).
  assert (Hh : px_length (js_or (options (core control1) !! "height") (JStr "180px"))
               = true) by (vm_compute; reflexivity).
  split; [exact Hen|]. split; [exact Hw|]. split; [exact Hh|].
  destruct (toggle_alternates px_length 2 control1 Hen Hw Hh) as (H3 & _).
  destruct (toggle_alternates px_length 3 control1 Hen Hw Hh)
    as (H4 & (cont & Hc & Hwd & Hht & Hr) & _).
  split; [rewrite H3; vm_compute; reflexivity|].
  assert (E4 : isCollapsed (core (Nat.iter 4 (toggle px_length) control1)) = false)
    by (rewrite H4; vm_compute; reflexivity).
  split; [exact E4|].
  exists cont. split; [exact Hc|].
  rewrite E4 in Hwd, Hht, Hr.
  split; [rewrite Hwd; vm_compute; reflexivity|].
  split; [rewrite Hht; vm_compute; reflexivity|].
  rewrite Hr. vm_compute. reflexivity.
Defined.

(** [toggle] without a container, without a button or without
    [toggleDisplay] changes nothing. *)
Lemma toggle_disabled (css_length : JsVal → bool) (c : Control) :
  container c = None ∨ toggleButton c = None ∨
  truthy (options (core c) !! "toggleDisplay") = false →
  toggle css_length c = c.
Proof.
  intros H. unfold toggle, collapse, expand.
  destruct (isCollapsed (core c)), (container c), (toggleButton c);
    cbn [negb]; try reflexivity;
    destruct H as [H|[H|H]]; try discriminate H; rewrite H; reflexivity.
Qed.

(** A width the browser does not take as a length is dropped by [expand]:
    the container keeps the width it had, 24px after a [collapse]. *)
Lemma expand_drops_rejected_width
    (css_length : JsVal → bool) (c : Control) (cont : Container) (btn : ToggleButton) :
  container c = Some cont → toggleButton c = Some btn →
  truthy (options (core c) !! "toggleDisplay") = true →
  css_length (js_or (options (core c) !! "width") (JStr "320px")) = false →
  ∃ cont',
    container (expand css_length c) = Some cont' ∧
    style_width cont' = style_width cont.
Proof.
  intros Hc Hb Ht Hw. unfold expand, assign_length. rewrite Hc, Hb, Ht, Hw.
  eexists. split; reflexivity.
Qed.

(** *** Moving the container *)

Lemma EnableMove_bound_while_dragging (evs : list EnableMove.Event) (s : EnableMove.t) :
  EnableMove.window_mousemove s = EnableMove.isDragging s →
  EnableMove.window_mouseup s = EnableMove.isDragging s →
  EnableMove.window_mousemove (foldl EnableMove.dispatch s evs)
  = EnableMove.isDragging (foldl EnableMove.dispatch s evs) ∧
  EnableMove.window_mouseup (foldl EnableMove.dispatch s evs)
  = EnableMove.isDragging (foldl EnableMove.dispatch s evs).
Proof.
  revert s. induction evs as [|ev evs IH]; intros s H1 H2; [split; assumption|].
  cbn [foldl]. apply IH; destruct s as [d x y l u sl st wm wu];
    cbn in H1, H2; subst;
    destruct ev as [e l' u'|e|]; cbn; destruct d; reflexivity.
Qed.

Lemma EnableMove_idle_moves (es : list EnableMove.MouseEvent) (s : EnableMove.t) :
  EnableMove.window_mousemove s = false →
  foldl EnableMove.dispatch s (EnableMove.WindowMouseMove <$> es) = s.
Proof.
  intros H. induction es as [|e es IH]; [reflexivity|].
  cbn [fmap list_fmap foldl EnableMove.dispatch]. rewrite H. exact IH.
Qed.

(** X11. The two [window] listeners of [enableMove] are bound exactly
    while a press on the move handle is in progress, whatever the order of
    presses, moves and releases; and with no press in progress pointer moves
    leave the closure, hence the container, as it is. *)
Theorem enableMove_listeners_follow_press
    (c : Control) (s0 : EnableMove.t) (evs : list EnableMove.Event)
    (es : list EnableMove.MouseEvent) :
  enableMove c = Some s0 →
  let s := foldl EnableMove.dispatch s0 evs in
  EnableMove.window_mousemove s = EnableMove.isDragging s ∧
  EnableMove.window_mouseup s = EnableMove.isDragging s ∧
  (EnableMove.isDragging s = false →
   foldl EnableMove.dispatch s (EnableMove.WindowMouseMove <$> es) = s) ∧
  foldl EnableMove.dispatch s
    (EnableMove.WindowMouseUp :: (EnableMove.WindowMouseMove <$> es))
  = EnableMove.dispatch s EnableMove.WindowMouseUp.
Proof.
  intros Hs0. cbv zeta.
  assert (s0 = EnableMove.init) as ->.
  { unfold enableMove in Hs0. destruct (container c); [|discriminate Hs0].
    destruct (truthy _); [|discriminate Hs0]. injection Hs0 as <-. reflexivity. }
  destruct (EnableMove_bound_while_dragging evs EnableMove.init eq_refl eq_refl)
    as [H1 H2].
  split; [exact H1|]. split; [exact H2|]. split.
  - intros Hd. apply EnableMove_idle_moves. rewrite H1. exact Hd.
  - cbn [foldl]. apply EnableMove_idle_moves.
    destruct (foldl EnableMove.dispatch EnableMove.init evs)
      as [d x y l u sl st wm wu].
    cbn in H1, H2. subst. cbn. destruct d; reflexivity.
Qed.

Lemma EnableMove_moves_keep_press
    (es : list EnableMove.MouseEvent) (s : EnableMove.t) :
  EnableMove.isDragging s = true → EnableMove.window_mousemove s = true →
  let s' := foldl EnableMove.dispatch s (EnableMove.WindowMouseMove <$> es) in
  EnableMove.isDragging s' = true ∧ EnableMove.window_mousemove s' = true ∧
  EnableMove.startX s' = EnableMove.startX s ∧
  EnableMove.startY s' = EnableMove.startY s ∧
  EnableMove.initialLeft s' = EnableMove.initialLeft s ∧
  EnableMove.initialTop s' = EnableMove.initialTop s.
Proof.
  revert s. induction es as [|e es IH]; intros s Hd Hw; [repeat split; assumption|].
  cbn [fmap list_fmap foldl]. cbv zeta.
  destruct s as [d x y l u sl st wm wu]. cbn in Hd, Hw. subst.
  cbn [EnableMove.dispatch EnableMove.window_mousemove EnableMove.onMouseMove
       EnableMove.isDragging].
  match goal with
  | |- context [foldl EnableMove.dispatch ?s1 _] =>
      destruct (IH s1 eq_refl eq_refl) as (A & B & C & D & E & F)
  end.
  repeat split; assumption.
Qed.

(** X12. While the move handle is pressed, each pointer move puts the
    container at the offset it had when pressed plus the displacement of the
    pointer since the press: the position depends on the press and on the
    last move only, not on what came before or in between. *)
Theorem enableMove_position
    (c : Control) (s0 : EnableMove.t) (pre : list EnableMove.Event)
    (e : EnableMove.MouseEvent) (offsetLeft offsetTop : Q)
    (es : list EnableMove.MouseEvent) (e' : EnableMove.MouseEvent) :
  enableMove c = Some s0 →
  let s :=
    foldl EnableMove.dispatch s0
      (pre ++ [EnableMove.HandleMouseDown e offsetLeft offsetTop] ++
       (EnableMove.WindowMouseMove <$> es) ++ [EnableMove.WindowMouseMove e']) in
  EnableMove.style_left s
  = Some (offsetLeft + (EnableMove.clientX e' - EnableMove.clientX e)) ∧
  EnableMove.style_top s
  = Some (offsetTop + (EnableMove.clientY e' - EnableMove.clientY e)).
Proof.
  intros _. cbv zeta. rewrite !foldl_app.
  set (s1 := foldl EnableMove.dispatch s0 pre).
  cbn [foldl EnableMove.dispatch].
  destruct (EnableMove_moves_keep_press es
              (EnableMove.onMouseDown e offsetLeft offsetTop s1) eq_refl eq_refl)
    as (Hd & Hw & Hx & Hy & Hl & Ht).
  set (s2 := foldl EnableMove.dispatch
               (EnableMove.onMouseDown e offsetLeft offsetTop s1) _) in *.
  rewrite Hw. unfold EnableMove.onMouseMove. rewrite Hd.
  cbn [EnableMove.style_left EnableMove.style_top].
  rewrite Hx, Hy, Hl, Ht. split; reflexivity.
Qed.

(** *** Resizing the container *)

Lemma EnableResize_unbound_stays
    (this : Minimap) (evs : list EnableResize.Event) (s : EnableResize.t) :
  EnableResize.window_mouseup s = false →
  EnableResize.window_mouseup (foldl (EnableResize.dispatch this) s evs) = false ∧
  (EnableResize.window_mousemove s = true →
   EnableResize.window_mousemove (foldl (EnableResize.dispatch this) s evs) = true).
Proof.
  revert s. induction evs as [|ev evs IH]; intros s Hu; [split; auto|].
  cbn [foldl].
  assert (Hu' : EnableResize.window_mouseup (EnableResize.dispatch this s ev) = false).
  { destruct s as [mc tn wm wu n]. cbn in Hu. subst.
    destruct ev; cbn; try reflexivity.
    unfold EnableResize.handleResize. destruct wm, (minimap this); reflexivity. }
  destruct (IH _ Hu') as [H1 H2]. split; [exact H1|].
  intros Hm. apply H2.
  destruct s as [mc tn wm wu n]. cbn in Hu, Hm. subst.
  destruct ev; cbn; try reflexivity.
  unfold EnableResize.handleResize. destruct (minimap this); reflexivity.
Qed.

Lemma EnableResize_moves_resize
    (this : Minimap) (k : nat) (s : EnableResize.t) :
  is_Some (minimap this) → EnableResize.window_mousemove s = true →
  EnableResize.resize_calls
    (foldl (EnableResize.dispatch this) s (replicate k EnableResize.WindowMouseMove))
  = (EnableResize.resize_calls s + k)%nat.
Proof.
  intros [mm Hmm]. revert s. induction k as [|k IH]; intros s Hm.
  - cbn. lia.
  - cbn [replicate foldl EnableResize.dispatch]. rewrite Hm.
    assert (H1 : EnableResize.window_mousemove (EnableResize.handleResize this s)
                 = true).
    { unfold EnableResize.handleResize. rewrite Hmm. exact Hm. }
    assert (H2 : EnableResize.resize_calls (EnableResize.handleResize this s)
                 = S (EnableResize.resize_calls s)).
    { unfold EnableResize.handleResize. rewrite Hmm. reflexivity. }
    rewrite IH by exact H1. rewrite H2. lia.
Qed.

(** X13. The [mouseup] listener of [enableResize] is bound once, with
    [once: true], when the control is added.  The first press and release
    bind and unbind the resize listener; after any release, however, a press
    on the container binds it for good: no later event unbinds it, and every
    later pointer move over the window calls [resize()] on the inset map. *)
Theorem enableResize_listener_stays_bound
    (c c' : Control) (s0 : EnableResize.t) (this : Minimap)
    (pre mid post : list EnableResize.Event) (k : nat) :
  enableResize c = (c', Some s0) →
  EnableResize.window_mousemove
    (foldl (EnableResize.dispatch this) s0
       [EnableResize.ContainerMouseDown; EnableResize.WindowMouseUp]) = false ∧
  let s :=
    foldl (EnableResize.dispatch this) s0
      (pre ++ [EnableResize.WindowMouseUp] ++ mid ++
       [EnableResize.ContainerMouseDown] ++ post) in
  EnableResize.window_mouseup s = false ∧
  EnableResize.window_mousemove s = true ∧
  (is_Some (minimap this) →
   EnableResize.resize_calls
     (foldl (EnableResize.dispatch this) s (replicate k EnableResize.WindowMouseMove))
   = (EnableResize.resize_calls s + k)%nat).
Proof.
  intros Hs0. split.
  { unfold enableResize in Hs0. destruct (container c); [|discriminate Hs0].
    destruct (truthy _); [|discriminate Hs0]. injection Hs0 as _ <-. reflexivity. }
  cbv zeta. rewrite !foldl_app.
  set (s1 := foldl (EnableResize.dispatch this) s0 pre).
  assert (Hu : EnableResize.window_mouseup
                 (foldl (EnableResize.dispatch this) s1 [EnableResize.WindowMouseUp])
               = false).
  { cbn. destruct (EnableResize.window_mouseup s1) eqn:E; [reflexivity|exact E]. }
  set (s2 := foldl (EnableResize.dispatch this) s1 [EnableResize.WindowMouseUp]) in *.
  destruct (EnableResize_unbound_stays this mid s2 Hu) as [Hu3 _].
  set (s3 := foldl (EnableResize.dispatch this) s2 mid) in *.
  cbn [foldl EnableResize.dispatch].
  destruct (EnableResize_unbound_stays this post (EnableResize.onMouseDown s3))
    as [Hu4 Hm4]; [exact Hu3|].
  specialize (Hm4 eq_refl).
  split; [exact Hu4|]. split; [exact Hm4|].
  intros Hmm. apply EnableResize_moves_resize; assumption.
Qed.

Lemma enableResize_listener_stays_bound_witness :
  let s0 :=
    {| EnableResize.minimapContainer := true;
       EnableResize.transition_none := false;
       EnableResize.window_mousemove := false;
       EnableResize.window_mouseup := true;
       EnableResize.resize_calls := 0 |} in
  enableResize control1 = (fst (enableResize control1), Some s0) ∧
  EnableResize.window_mousemove
    (foldl (EnableResize.dispatch (core control1)) s0
       ([EnableResize.ContainerMouseDown] ++ [EnableResize.WindowMouseUp] ++
        [EnableResize.WindowMouseMove] ++
        [EnableResize.ContainerMouseDown] ++
        [EnableResize.WindowMouseUp; EnableResize.WindowMouseMove])) = true.
Proof.
  intros s0.
  assert (E : enableResize control1 = (fst (enableResize control1), Some s0))
    by (vm_compute; reflexivity).
  split; [exact E|].
  exact (proj1 (proj2 (proj2
           (enableResize_listener_stays_bound control1 _ s0 (core control1)
              [EnableResize.ContainerMouseDown] [EnableResize.WindowMouseMove]
              [EnableResize.WindowMouseUp; EnableResize.WindowMouseMove] 0 E)))).
Defined.

Lemma enableMove_listeners_follow_press_witness :
  enableMove control1 = Some EnableMove.init ∧
  EnableMove.window_mousemove
    (foldl EnableMove.dispatch EnableMove.init
       [EnableMove.WindowMouseMove {| EnableMove.clientX := 3; EnableMove.clientY := 4 |};
        EnableMove.HandleMouseDown
          {| EnableMove.clientX := 3; EnableMove.clientY := 4 |} 100 50])
  = true.
Proof.
  assert (E : enableMove control1 = Some EnableMove.init)
    by (vm_compute; reflexivity).
  split; [exact E|].
  rewrite (proj1 (enableMove_listeners_follow_press control1 EnableMove.init _ [] E)).
  vm_compute. reflexivity.
Defined.

Lemma enableMove_position_witness :
  enableMove control1 = Some EnableMove.init ∧
  EnableMove.style_left
    (foldl EnableMove.dispatch EnableMove.init
       ([EnableMove.WindowMouseUp] ++
        [EnableMove.HandleMouseDown
           {| EnableMove.clientX := 3; EnableMove.clientY := 4 |} 100 50] ++
        (EnableMove.WindowMouseMove <$>
           [{| EnableMove.clientX := 9; EnableMove.clientY := 9 |}]) ++
        [EnableMove.WindowMouseMove
           {| EnableMove.clientX := 13; EnableMove.clientY := 1 |}]))
  = Some (100 + (13 - 3)).
Proof.
  assert (E : enableMove control1 = Some EnableMove.init)
    by (vm_compute; reflexivity).
  split; [exact E|].
  exact (proj1 (enableMove_position control1 EnableMove.init
                  [EnableMove.WindowMouseUp]
                  {| EnableMove.clientX := 3; EnableMove.clientY := 4 |} 100 50
                  [{| EnableMove.clientX := 9; EnableMove.clientY := 9 |}]
                  {| EnableMove.clientX := 13; EnableMove.clientY := 1 |} E)).
Defined.
